(** * Hotel management backend: bookings, room status and payment ledger

    A shallow embedding of the request handlers of the hotel backend
    (src/main.py, src/app/reservations/router.py, src/app/payments/router.py)
    over an explicit model of the SQLAlchemy session they share, followed by
    the properties of the booking / payment core. *)

From Stdlib Require Import ZArith QArith Lqa Lia.
From Stdlib Require Import Qround Qpower.
From Stdlib Require Import Floats.
From Stdlib Require Uint63.
From stdpp Require Import base decidable option list strings gmap.

Set Warnings "-inexact-float".

Local Open Scope string_scope.
Local Open Scope Z_scope.

(** ** Values *)

(** A [datetime.date], as its proleptic ordinal: only the order of dates is
    used by the handlers. *)
Definition date := Z.

(** A [datetime.datetime]: [tzinfo] is the UTC offset when the value is
    timezone-aware and [None] when it is naive; [instant] is the point in time
    that aware datetimes are compared by. *)
Record datetime := { tzinfo : option Z; instant : Z }.

(** An f-string, as the sequence of its literal parts and formatted values. *)
Inductive piece :=
  | Txt (s : string)      (* literal text *)
  | Str (s : string)      (* a formatted str *)
  | Int (z : Z)           (* a formatted int *)
  | Num (f : float)       (* a formatted float *)
  | Day (d : date)        (* a formatted date *)
  | DateTime (t : datetime) (* a formatted datetime *)
  | ExcStr.               (* str(e) of the exception being handled *)

Definition fstring := list piece.

(** Amounts are Python floats: binary64, with the operations of the
    machine.  [sum] adds from 0, left to right, with the plain addition of
    doubles, as CPython does before 3.12 (later versions compensate the
    rounding of the additions, which shows from three floats on). *)

(** [float(z)] for a Python int: the nearest double, ties to even;
    [None] stands for the OverflowError of an int that rounds past the
    largest double, which is every int from [2^1024 - 2^970] on. *)
Definition float_of_int (z : Z) : option float :=
  if Z.abs z <? 2 ^ 1024 - 2 ^ 970
  then Some (SF2Prim (binary_normalize prec emax z 0 false))
  else None.

(** The order of a float and a Python int, which Python decides on their
    exact values; [None] when the float is not a number. *)
Definition float_compare_int (x : float) (z : Z) : option comparison :=
  match Prim2SF x with
  | S754_nan => None
  | S754_infinity s => Some (if s then Lt else Gt)
  | S754_zero _ => Some (0 ?= z)
  | S754_finite s m e =>
      let v := if s then Z.neg m else Z.pos m in
      Some (if 0 <=? e then v * 2 ^ e ?= z else v ?= z * 2 ^ (- e))
  end.

(** [x > z] and [x == z] for a float [x] and an int [z]. *)
Definition float_gt_int (x : float) (z : Z) : bool :=
  match float_compare_int x z with Some Gt => true | _ => false end.

(** [x or 0] on an Optional[float]: a missing or zero value gives 0. *)
Definition or0 (x : option float) : float :=
  match x with
  | Some q => if (q =? 0)%float then 0%float else q
  | None => 0%float
  end.

(** Python's [max(a, b)]: [b] only when [b > a]. *)
Definition py_max (a b : float) : float := if (a <? b)%float then b else a.

(** A Python number where the code mixes ints and floats. *)
Inductive number :=
  | PyInt (z : Z)
  | PyFloat (f : float).

(** The float an arithmetic operation with a float operand takes a number
    for; [None] is the OverflowError of [float_of_int]. *)
Definition as_float (n : number) : option float :=
  match n with
  | PyInt z => float_of_int z
  | PyFloat f => Some f
  end.

(** [a + b] and [a - b]: on ints when both are ints, on floats otherwise. *)
Definition py_add (a b : number) : option number :=
  match a, b with
  | PyInt x, PyInt y => Some (PyInt (x + y))
  | _, _ => x ← as_float a; y ← as_float b; Some (PyFloat (x + y)%float)
  end.

Definition py_sub (a b : number) : option number :=
  match a, b with
  | PyInt x, PyInt y => Some (PyInt (x - y))
  | _, _ => x ← as_float a; y ← as_float b; Some (PyFloat (x - y)%float)
  end.

(** [n > 0]. *)
Definition py_positive (n : number) : bool :=
  match n with
  | PyInt z => bool_decide (0 < z)
  | PyFloat f => (0 <? f)%float
  end.

(** A [for] loop whose body may raise: the state after the last element, or
    [None] as soon as the body raises. *)
Fixpoint for_each {A B} (body : B → A → option B) (l : list A) (acc : B) : option B :=
  match l with
  | [] => Some acc
  | x :: l => acc' ← body acc x; for_each body l acc'
  end.

(** ** Tables *)

Module Room.
(** src/app/rooms/models.py; rows are keyed by the unique [room_number]. *)
Record t := { room_type : string; amount : Z; status : string }.
Definition with_status (s : string) (r : t) : t :=
  {| room_type := room_type r; amount := amount r; status := s |}.
End Room.

Module Reservation.
(** The Reservation rows written by the handlers: a stay, discriminated by
    [status]. *)
Record t := {
  id : Z;
  room_number : string;
  guest_name : string;
  arrival_date : date;
  departure_date : date;
  status : string
}.
Definition with_status (s : string) (r : t) : t :=
  {| id := id r; room_number := room_number r; guest_name := guest_name r;
     arrival_date := arrival_date r; departure_date := departure_date r;
     status := s |}.
Definition with_id (i : Z) (r : t) : t :=
  {| id := i; room_number := room_number r; guest_name := guest_name r;
     arrival_date := arrival_date r; departure_date := departure_date r;
     status := status r |}.
End Reservation.

Module Booking.
(** The fields of app.bookings.models.Booking read or written by the payment
    handlers; rows are keyed by [id]. *)
Record t := {
  room_number : string;
  guest_name : string;
  number_of_days : Z;
  booking_cost : option float;
  status : string;
  payment_status : string
}.
Definition with_payment_status (s : string) (b : t) : t :=
  {| room_number := room_number b; guest_name := guest_name b;
     number_of_days := number_of_days b; booking_cost := booking_cost b;
     status := status b; payment_status := s |}.
End Booking.

Module Payment.
(** The fields of app.payments.models.Payment used by the payment handlers. *)
Record t := {
  id : Z;
  booking_id : Z;
  amount_paid : float;
  discount_allowed : option float;
  payment_method : string;
  payment_date : datetime;
  balance_due : float;
  status : string;
  booking_cost : option float
}.
Definition with_status (s : string) (p : t) : t :=
  {| id := id p; booking_id := booking_id p; amount_paid := amount_paid p;
     discount_allowed := discount_allowed p;
     payment_method := payment_method p; payment_date := payment_date p;
     balance_due := balance_due p; status := s;
     booking_cost := booking_cost p |}.
End Payment.

(** The database: rooms by room number, bookings by id, reservation and
    payment rows in insertion order ([.first()] is the first match). *)
Record DB := {
  rooms : gmap string Room.t;
  reservations : list Reservation.t;
  bookings : gmap Z Booking.t;
  payments : list Payment.t
}.

Definition set_rooms (f : gmap string Room.t → gmap string Room.t) (db : DB) : DB :=
  {| rooms := f (rooms db); reservations := reservations db;
     bookings := bookings db; payments := payments db |}.
Definition set_reservations (f : list Reservation.t → list Reservation.t) (db : DB) : DB :=
  {| rooms := rooms db; reservations := f (reservations db);
     bookings := bookings db; payments := payments db |}.
Definition set_bookings (f : gmap Z Booking.t → gmap Z Booking.t) (db : DB) : DB :=
  {| rooms := rooms db; reservations := reservations db;
     bookings := f (bookings db); payments := payments db |}.
Definition set_payments (f : list Payment.t → list Payment.t) (db : DB) : DB :=
  {| rooms := rooms db; reservations := reservations db;
     bookings := bookings db; payments := f (payments db) |}.

(** The id an autoincrement primary key gives the next row. *)
Definition next_id (ids : list Z) : Z := 1 + foldr Z.max 0 ids.

(** ** The session

    A handler works on a session: [pending] is the database as the session
    sees it, [committed] what is durably stored.  [faults] says, for each
    [db.commit()] the handler will issue, whether the store fails there. *)

Inductive exn :=
  | HTTPException (status_code : Z) (detail : fstring)
  | SQLAlchemyError
  | OverflowError.

Inductive outcome (A : Type) :=
  | Return (a : A)
  | Raise (e : exn).
Arguments Return {A} a.
Arguments Raise {A} e.

Record Session := { committed : DB; pending : DB; faults : list bool }.

Definition M (A : Type) : Type := Session → outcome A * Session.

Definition ret {A} (a : A) : M A := fun s => (Return a, s).
Definition bind {A B} (m : M A) (k : A → M B) : M B :=
  fun s => match m s with
           | (Return a, s') => k a s'
           | (Raise e, s') => (Raise e, s')
           end.
Definition raise {A} (e : exn) : M A := fun s => (Raise e, s).

(** [try: body except <handled> as e: handler]. *)
Definition try_except {A} (body : M A) (handled : exn → bool) (handler : M A) : M A :=
  fun s => match body s with
           | (Raise e, s') => if handled e then handler s' else (Raise e, s')
           | r => r
           end.

#[global] Instance M_ret : MRet M := @ret.
#[global] Instance M_bind : MBind M := fun A B k m => bind m k.

(** [db.query(...)]: read through the session. *)
Definition query {A} (f : DB → A) : M A := fun s => (Return (f (pending s)), s).

(** [db.add], [db.delete] and attribute writes on loaded rows. *)
Definition write (f : DB → DB) : M unit :=
  fun s => (Return tt, {| committed := committed s; pending := f (pending s);
                          faults := faults s |}).

(** [db.commit()]. *)
Definition commit : M unit :=
  fun s => match faults s with
           | true :: fs =>
               (Raise SQLAlchemyError,
                {| committed := committed s; pending := pending s; faults := fs |})
           | _ =>
               (Return tt,
                {| committed := pending s; pending := pending s;
                   faults := tail (faults s) |})
           end.

(** [db.rollback()]. *)
Definition rollback : M unit :=
  fun s => (Return tt, {| committed := committed s; pending := committed s;
                          faults := faults s |}).

Definition any_exception (e : exn) : bool := true.
Definition is_SQLAlchemyError (e : exn) : bool :=
  match e with SQLAlchemyError => true | _ => false end.

(** One request: a fresh session on the stored database; what is left stored
    when the session is closed. *)
Definition handle {A} (h : M A) (db : DB) (fs : list bool) : outcome A * DB :=
  let '(r, s) := h {| committed := db; pending := db; faults := fs |} in
  (r, committed s).

(** The authenticated caller (schemas.UserDisplaySchema). *)
Record UserDisplaySchema := { user_id : Z; username : string; role : string }.

(** Request bodies (src/schemas.py). *)
Record ReservationSchema := {
  rs_room_number : string;
  rs_guest_name : string;
  rs_arrival_date : date;
  rs_departure_date : date
}.

Record CheckInSchema := {
  ci_room_number : string;
  ci_guest_name : string;
  ci_arrival_date : date;
  ci_departure_date : date
}.

(** ** Row-level effects shared by the handlers *)

(** [db.add(row); db.commit(); db.refresh(row)]: the row as stored, with the
    primary key it was given. *)
Definition add_reservation (r : Reservation.t) : M Reservation.t :=
  ids ← query (fun db => Reservation.id <$> reservations db);
  let row := Reservation.with_id (next_id ids) r in
  write (set_reservations (fun l => (l ++ [row])%list));;
  commit;;
  mret row.

(** [room.status = s] on the room loaded by its number. *)
Definition set_room_status (rn s : string) : M unit :=
  write (set_rooms (alter (Room.with_status s) rn)).

(** [reservation.status = s] on a loaded row (found again by primary key). *)
Definition set_reservation_status (i : Z) (s : string) : M unit :=
  write (set_reservations
           (fmap (fun r => if decide (Reservation.id r = i)
                           then Reservation.with_status s r else r))).

(** [db.delete(reservation)]. *)
Definition delete_reservation_row (i : Z) : M unit :=
  write (set_reservations (filter (fun r => Reservation.id r ≠ i))).

(** [query.filter(...).first()] on a table kept in row order. *)
Definition first {A} (P : A → bool) (l : list A) : option A := List.find P l.

(** [str(e)] inside an f-string of an [except Exception as e] handler. *)
Definition error_occurred : fstring := [Txt "An error occurred: "; ExcStr].

(** ** src/main.py *)

Module Main.

(** The filter of the duplicate-reservation query of [create_reservation]:
    a row of the room whose dates meet the requested ones. *)
Definition overlaps_request (reservation : ReservationSchema) (r : Reservation.t) : bool :=
  bool_decide (Reservation.room_number r = rs_room_number reservation)
  && (Reservation.arrival_date r <=? rs_departure_date reservation)
  && (Reservation.departure_date r >=? rs_arrival_date reservation).

Definition create_reservation (reservation : ReservationSchema) : M (fstring * Z) :=
  if decide (rs_room_number reservation = "" ∨ rs_guest_name reservation = "")
  then raise (HTTPException 400 [Txt "Room number and guest name are required."])
  else
    room ← query (fun db => rooms db !! rs_room_number reservation);
    match room with
    | None => raise (HTTPException 404 [Txt "Room not found"])
    | Some room =>
        if decide (Room.status room ≠ "available")
        then raise (HTTPException 400
                      [Txt "Room "; Str (rs_room_number reservation);
                       Txt " is not available for reservation."])
        else
          existing_reservation ←
            query (fun db => first (overlaps_request reservation) (reservations db));
          match existing_reservation with
          | Some _ =>
              raise (HTTPException 400
                [Txt "A reservation already exists for this room during the specified period."])
          | None =>
              try_except
                (new_reservation ←
                   add_reservation
                     {| Reservation.id := 0;
                        Reservation.room_number := rs_room_number reservation;
                        Reservation.guest_name := rs_guest_name reservation;
                        Reservation.arrival_date := rs_arrival_date reservation;
                        Reservation.departure_date := rs_departure_date reservation;
                        Reservation.status := "reserved" |};
                 set_room_status (rs_room_number reservation) "reserved";;
                 commit;;
                 mret ([Txt "Reservation created successfully"],
                       Reservation.id new_reservation))
                any_exception
                (rollback;; raise (HTTPException 500 error_occurred))
          end
    end.

Definition check_in_guest (check_in_request : CheckInSchema)
    (current_user : UserDisplaySchema) : M (fstring * Reservation.t) :=
  let room_number := ci_room_number check_in_request in
  room ← query (fun db => rooms db !! room_number);
  match room with
  | None => raise (HTTPException 404 [Txt "Room not found"])
  | Some room =>
      if decide (Room.status room ≠ "available")
      then raise (HTTPException 400 [Txt "Room is not available for check-in"])
      else
        try_except
          (new_reservation ←
             add_reservation
               {| Reservation.id := 0;
                  Reservation.room_number := room_number;
                  Reservation.guest_name := ci_guest_name check_in_request;
                  Reservation.arrival_date := ci_arrival_date check_in_request;
                  Reservation.departure_date := ci_departure_date check_in_request;
                  Reservation.status := "checked-in" |};
           set_room_status room_number "checked-in";;
           commit;;
           mret ([Txt "Guest "; Str (ci_guest_name check_in_request);
                  Txt " successfully checked into room "; Str room_number],
                 new_reservation))
          any_exception
          (rollback;; raise (HTTPException 500 error_occurred))
  end.

Definition is_checked_in (room_number : string) (r : Reservation.t) : bool :=
  bool_decide (Reservation.room_number r = room_number)
  && bool_decide (Reservation.status r = "checked-in").

Definition check_out_guest (room_number : string)
    (current_user : UserDisplaySchema) : M (fstring * Reservation.t) :=
  room ← query (fun db => rooms db !! room_number);
  match room with
  | None => raise (HTTPException 404 [Txt "Room not found"])
  | Some room =>
      reservation ←
        query (fun db => first (is_checked_in room_number) (reservations db));
      match reservation with
      | None =>
          raise (HTTPException 400
                   [Txt "Room "; Str room_number; Txt " is not currently checked-in."])
      | Some reservation =>
          try_except
            (set_reservation_status (Reservation.id reservation) "checked-out";;
             commit;;
             set_room_status room_number "available";;
             commit;;
             mret ([Txt "Guest "; Str (Reservation.guest_name reservation);
                    Txt " successfully checked out of room "; Str room_number],
                   Reservation.with_status "checked-out" reservation))
            any_exception
            (rollback;; raise (HTTPException 500 error_occurred))
      end
  end.

Definition of_room (room_number : string) (r : Reservation.t) : bool :=
  bool_decide (Reservation.room_number r = room_number).

Definition cancel_reservation (room_number : string)
    (current_user : UserDisplaySchema) : M fstring :=
  if decide (role current_user ≠ "admin")
  then raise (HTTPException 403
                [Txt "You do not have permission to cancel reservations."])
  else
    reservation ← query (fun db => first (of_room room_number) (reservations db));
    match reservation with
    | None =>
        raise (HTTPException 404
                 [Txt "No reservation found for the specified room number."])
    | Some reservation =>
        try_except
          (room ← query (fun db => rooms db !! room_number);
           match room with
           | Some room =>
               if decide (Room.status room = "reserved")
               then set_room_status room_number "available";; commit
               else mret tt
           | None => mret tt
           end;;
           delete_reservation_row (Reservation.id reservation);;
           commit;;
           mret [Txt "Reservation for room "; Str room_number;
                 Txt " has been successfully canceled."])
          any_exception
          (rollback;; raise (HTTPException 500 error_occurred))
    end.

End Main.

(** ** src/app/reservations/router.py *)

Module Reservations.

(** The two availability queries of app.reservations.crud that
    [create_reservation] imports; the module itself is not among the
    sources, so the handler is embedded over this interface. *)
Class Crud := {
  check_overlapping_check_in : DB → string → date → date → option Reservation.t;
  check_overlapping_reservations : DB → string → date → date → option Reservation.t
}.

Section Handlers.
Context `{Crud}.

Definition create_reservation (today : date) (reservation : ReservationSchema)
    : M (fstring * Reservation.t) :=
  if decide (rs_room_number reservation = "")
  then raise (HTTPException 400 [Txt "Room number is required."])
  else if decide (rs_arrival_date reservation > rs_departure_date reservation)
  then raise (HTTPException 400
         [Txt "Arrival date must be before or on the same day as the departure date."])
  else if decide (rs_arrival_date reservation ≤ today)
  then raise (HTTPException 400
         [Txt "Reservations cannot be made for today or past dates. Use the check-in functionality instead."])
  else
    room ← query (fun db => rooms db !! rs_room_number reservation);
    match room with
    | None => raise (HTTPException 404 [Txt "Room not found."])
    | Some room =>
        checked_in_reservation ←
          query (fun db => check_overlapping_check_in db
                             (rs_room_number reservation)
                             (rs_arrival_date reservation)
                             (rs_departure_date reservation));
        match checked_in_reservation with
        | Some checked_in_reservation =>
            raise (HTTPException 400
              [Txt "Room "; Str (rs_room_number reservation);
               Txt " is already checked in by another guest from ";
               Day (Reservation.arrival_date checked_in_reservation);
               Txt " to ";
               Day (Reservation.departure_date checked_in_reservation);
               Txt "."])
        | None =>
            overlapping_reservation ←
              query (fun db => check_overlapping_reservations db
                                 (rs_room_number reservation)
                                 (rs_arrival_date reservation)
                                 (rs_departure_date reservation));
            match overlapping_reservation with
            | Some overlapping_reservation =>
                raise (HTTPException 400
                  [Txt "Room "; Str (rs_room_number reservation);
                   Txt " is already occupied or reserved from ";
                   Day (Reservation.arrival_date overlapping_reservation);
                   Txt " to ";
                   Day (Reservation.departure_date overlapping_reservation);
                   Txt "."])
            | None =>
                if decide (Room.status room = "maintenance")
                then raise (HTTPException 400
                       [Txt "Room "; Str (rs_room_number reservation);
                        Txt " is under maintenance and cannot be reserved."])
                else
                  try_except
                    (new_reservation ←
                       add_reservation
                         {| Reservation.id := 0;
                            Reservation.room_number := rs_room_number reservation;
                            Reservation.guest_name := rs_guest_name reservation;
                            Reservation.arrival_date := rs_arrival_date reservation;
                            Reservation.departure_date := rs_departure_date reservation;
                            Reservation.status := "reserved" |};
                     set_room_status (rs_room_number reservation) "reserved";;
                     commit;;
                     mret ([Txt "Reservation created successfully."],
                           new_reservation))
                    any_exception
                    (rollback;; raise (HTTPException 500 error_occurred))
            end
        end
    end.

End Handlers.

Definition of_room_and_guest (room_number guest_name : string) (r : Reservation.t) : bool :=
  bool_decide (Reservation.room_number r = room_number)
  && bool_decide (Reservation.guest_name r = guest_name).

Definition delete_reservation (room_number guest_name : string)
    (current_user : UserDisplaySchema) : M (fstring * string) :=
  try_except
    (reservation ←
       query (fun db => first (of_room_and_guest room_number guest_name)
                          (reservations db));
     match reservation with
     | None =>
         raise (HTTPException 404
                  [Txt "No reservation found for room "; Str room_number;
                   Txt " and guest "; Str guest_name; Txt "."])
     | Some reservation =>
         if decide (role current_user ≠ "admin"
                    ∧ Reservation.guest_name reservation ≠ username current_user)
         then raise (HTTPException 403
                       [Txt "You do not have permission to delete this reservation."])
         else
           delete_reservation_row (Reservation.id reservation);;
           commit;;
           remaining_reservations ←
             query (fun db => Z.of_nat (length (filter
                      (fun r => Reservation.room_number r = room_number)
                      (reservations db))));
           (if decide (remaining_reservations = 0)
            then
              room ← query (fun db => rooms db !! room_number);
              match room with
              | Some _ => set_room_status room_number "available";; commit
              | None => mret tt
              end
            else mret tt);;
           mret ([Txt "Reservation for room "; Str room_number; Txt " and guest ";
                  Str guest_name; Txt " successfully deleted."],
                 if decide (remaining_reservations = 0)
                 then "available" else "reserved")
     end)
    is_SQLAlchemyError
    (rollback;;
     raise (HTTPException 500
              [Txt "An error occurred while deleting the reservation: "; ExcStr])).

(** Modelled from the spec: app/reservations/crud.py is missing.  Section 4.1
    has the availability check run against two disjoint populations, the
    active check-ins and the active reservations of the room, each with the
    inclusive overlap test [a1 <= d2 and a2 <= d1], returning the conflicting
    stay if there is one. *)
Definition conflicting (status room_number : string) (arrival departure : date)
    (r : Reservation.t) : bool :=
  bool_decide (Reservation.room_number r = room_number)
  && bool_decide (Reservation.status r = status)
  && (Reservation.arrival_date r <=? departure)
  && (arrival <=? Reservation.departure_date r).

(** Modelled from the spec: the instance of the two missing queries, see
    [conflicting]. *)
Definition spec_crud : Crud := {|
  check_overlapping_check_in db room_number arrival departure :=
    first (conflicting "checked-in" room_number arrival departure) (reservations db);
  check_overlapping_reservations db room_number arrival departure :=
    first (conflicting "reserved" room_number arrival departure) (reservations db)
|}.

End Reservations.

(** A request that passes the checks of [Reservations.create_reservation]
    that precede the availability queries. *)
Definition admissible (db : DB) (today : date) (reservation : ReservationSchema)
    (room : Room.t) : Prop :=
  rs_room_number reservation ≠ ""
  ∧ rs_arrival_date reservation ≤ rs_departure_date reservation
  ∧ today < rs_arrival_date reservation
  ∧ rooms db !! rs_room_number reservation = Some room.

(** ** src/app/payments/router.py *)

Module PaymentCreateSchema.
(** src/app/payments/schemas.py *)
Record t := {
  amount_paid : float;
  discount_allowed : option float;
  payment_method : string;
  payment_date : datetime;
  booking_cost : option float
}.
End PaymentCreateSchema.

Module Payments.

(** The functions of app.payments.crud the handlers call; the module is not
    among the sources, so the handlers are embedded over this interface. *)
Module crud.
Class t := {
  get_room_by_number : DB → string → option Room.t;
  create_payment : PaymentCreateSchema.t → Z → float → string → M Payment.t;
  get_payment_by_id : DB → Z → option Payment.t
}.
End crud.

(** The generator expression summed for the amount already paid. *)
Definition paid (payment : Payment.t) : float :=
  (Payment.amount_paid payment + or0 (Payment.discount_allowed payment))%float.

(** Python's [sum] on floats: a left fold from 0, each step the addition of
    doubles. *)
Definition sum (l : list float) : float := fold_left PrimFloat.add l 0%float.

Definition not_voided_of (booking_id : Z) (p : Payment.t) : bool :=
  bool_decide (Payment.booking_id p = booking_id)
  && bool_decide (Payment.status p ≠ "voided").

Section Handlers.
Context `{crud.t}.

Definition create_payment (now : datetime) (booking_id : Z)
    (payment_request : PaymentCreateSchema.t)
    (current_user : UserDisplaySchema) : M (fstring * Payment.t) :=
  let transaction_time := now in
  match tzinfo (PaymentCreateSchema.payment_date payment_request) with
  | None =>
      raise (HTTPException 400
               [Txt "The provided payment_date must include timezone information."])
  | Some _ =>
      if decide (instant (PaymentCreateSchema.payment_date payment_request)
                 > instant transaction_time)
      then raise (HTTPException 400
                    [Txt "Transaction time ";
                     DateTime (PaymentCreateSchema.payment_date payment_request);
                     Txt " cannot be in the future."])
      else
        booking_record ← query (fun db => bookings db !! booking_id);
        match booking_record with
        | None =>
            raise (HTTPException 404
                     [Txt "Booking with ID "; Int booking_id; Txt " does not exist."])
        | Some booking_record =>
            room ← query (fun db =>
                            crud.get_room_by_number db (Booking.room_number booking_record));
            match room with
            | None =>
                raise (HTTPException 404
                         [Txt "Room "; Str (Booking.room_number booking_record);
                          Txt " does not exist."])
            | Some room =>
                if decide (Booking.status booking_record ∉ ["checked-in"; "reserved"])
                then raise (HTTPException 400
                              [Txt "Booking ID "; Int booking_id;
                               Txt " must be checked-in or reserved to make a payment."])
                else
                  let num_days := Booking.number_of_days booking_record in
                  let total_due := num_days * Room.amount room in
                  existing_payments ←
                    query (fun db => List.filter (not_voided_of booking_id) (payments db));
                  let total_existing_payment := sum (paid <$> existing_payments) in
                  let new_total_payment :=
                    (total_existing_payment
                     + PaymentCreateSchema.amount_paid payment_request
                     + or0 (PaymentCreateSchema.discount_allowed payment_request))%float in
                  let effective_total_due := total_due in
                  if float_gt_int new_total_payment effective_total_due
                  then raise (HTTPException 400
                                [Txt "Payment exceeds the total due amount of ";
                                 Int effective_total_due;
                                 Txt ". Please verify the payment amount."])
                  else
                    (* [effective_total_due - new_total_payment]: the int is
                       converted to a float first *)
                    match float_of_int effective_total_due with
                    | None => raise OverflowError
                    | Some due =>
                    let balance_due := py_max (due - new_total_payment)%float 0%float in
                    let status :=
                      if (0 <? balance_due)%float
                      then "payment incomplete" else "payment completed" in
                    try_except
                      (new_payment ←
                         crud.create_payment
                           {| PaymentCreateSchema.amount_paid :=
                                PaymentCreateSchema.amount_paid payment_request;
                              PaymentCreateSchema.discount_allowed :=
                                PaymentCreateSchema.discount_allowed payment_request;
                              PaymentCreateSchema.payment_method :=
                                PaymentCreateSchema.payment_method payment_request;
                              PaymentCreateSchema.payment_date :=
                                PaymentCreateSchema.payment_date payment_request;
                              PaymentCreateSchema.booking_cost :=
                                Booking.booking_cost booking_record |}
                           booking_id balance_due status;
                       write (set_bookings
                                (alter (Booking.with_payment_status status) booking_id));;
                       commit;;
                       mret ([Txt "Payment processed successfully."], new_payment))
                      any_exception
                      (rollback;;
                       raise (HTTPException 500 [Txt "Error creating payment."]))
                    end
            end
        end
  end.

Definition void_payment (payment_id : Z) (current_user : UserDisplaySchema)
    : M (fstring * (Z * string)) :=
  if decide (role current_user ≠ "admin")
  then raise (HTTPException 403 [Txt "Insufficient permissions"])
  else
    try_except
      (payment ← query (fun db => crud.get_payment_by_id db payment_id);
       match payment with
       | None =>
           raise (HTTPException 404
                    [Txt "Payment with ID "; Int payment_id; Txt " not found."])
       | Some payment =>
           write (set_payments
                    (fmap (fun p => if decide (Payment.id p = Payment.id payment)
                                    then Payment.with_status "voided" p else p)));;
           commit;;
           mret ([Txt "Payment with ID "; Int payment_id;
                  Txt " has been marked as void successfully."],
                 (Payment.id payment, "voided"))
       end)
      is_SQLAlchemyError
      (rollback;;
       raise (HTTPException 500
                [Txt "An error occurred while marking the payment as void."])).

End Handlers.

(** Modelled from the spec: app/payments/crud.py is missing.  The room is
    looked up by its number, a payment by its id, and a new payment row is
    stored with the amounts of the request and the balance and status the
    handler computed ([db.add; db.commit; db.refresh], as src/crud.py does
    for the rows it creates). *)
Definition spec_create_payment (payment : PaymentCreateSchema.t) (booking_id : Z)
    (balance_due : float) (status : string) : M Payment.t :=
  ids ← query (fun db => Payment.id <$> payments db);
  let row :=
    {| Payment.id := next_id ids;
       Payment.booking_id := booking_id;
       Payment.amount_paid := PaymentCreateSchema.amount_paid payment;
       Payment.discount_allowed := PaymentCreateSchema.discount_allowed payment;
       Payment.payment_method := PaymentCreateSchema.payment_method payment;
       Payment.payment_date := PaymentCreateSchema.payment_date payment;
       Payment.balance_due := balance_due;
       Payment.status := status;
       Payment.booking_cost := PaymentCreateSchema.booking_cost payment |} in
  write (set_payments (fun l => (l ++ [row])%list));;
  commit;;
  mret row.

(** Modelled from the spec: the instance of the missing crud functions, see
    [spec_create_payment]. *)
Definition spec_crud : crud.t := {|
  crud.get_room_by_number db room_number := rooms db !! room_number;
  crud.create_payment := spec_create_payment;
  crud.get_payment_by_id db payment_id :=
    first (fun p => bool_decide (Payment.id p = payment_id)) (payments db)
|}.

End Payments.

(** ** Sample data *)

Definition single (status : string) : Room.t :=
  {| Room.room_type := "single"; Room.amount := 100; Room.status := status |}.

Definition stay (id : Z) (room guest : string) (arrival departure : date)
    (status : string) : Reservation.t :=
  {| Reservation.id := id; Reservation.room_number := room;
     Reservation.guest_name := guest; Reservation.arrival_date := arrival;
     Reservation.departure_date := departure; Reservation.status := status |}.

Definition hotel (status : string) (stays : list Reservation.t) : DB :=
  {| rooms := {[ "101" := single status ]}; reservations := stays;
     bookings := ∅; payments := [] |}.

Definition admin : UserDisplaySchema :=
  {| user_id := 1; username := "root"; role := "admin" |}.
Definition alice : UserDisplaySchema :=
  {| user_id := 2; username := "alice"; role := "user" |}.
Definition bob : UserDisplaySchema :=
  {| user_id := 3; username := "bob"; role := "user" |}.

Definition reserve (room guest : string) (arrival departure : date) : ReservationSchema :=
  {| rs_room_number := room; rs_guest_name := guest;
     rs_arrival_date := arrival; rs_departure_date := departure |}.

Definition check_in (room guest : string) (arrival departure : date) : CheckInSchema :=
  {| ci_room_number := room; ci_guest_name := guest;
     ci_arrival_date := arrival; ci_departure_date := departure |}.

(** ** The stay invariant *)

(** An active stay: reserved or checked-in. *)
Definition active (r : Reservation.t) : Prop :=
  Reservation.status r = "reserved" ∨ Reservation.status r = "checked-in".

(** The intervals of two stays meet, bounds included. *)
Definition overlap (r1 r2 : Reservation.t) : Prop :=
  Reservation.arrival_date r1 ≤ Reservation.departure_date r2
  ∧ Reservation.arrival_date r2 ≤ Reservation.departure_date r1.

(** No two distinct active stays of one room overlap. *)
Definition non_overlapping (db : DB) : Prop :=
  ∀ i j r1 r2,
    i ≠ j →
    reservations db !! i = Some r1 →
    reservations db !! j = Some r2 →
    Reservation.room_number r1 = Reservation.room_number r2 →
    active r1 → active r2 →
    ¬ overlap r1 r2.

(** A room whose status is "available" has no active stay. *)
Definition available_rooms_free (db : DB) : Prop :=
  ∀ r room,
    r ∈ reservations db →
    rooms db !! Reservation.room_number r = Some room →
    Room.status room = "available" →
    ¬ active r.

(** The two operations that create stays, and runs of them in which no
    commit fails; [CreateReservation] is the handler of
    app/reservations/router.py over the availability queries of
    [Reservations.spec_crud], [CheckIn] the handler of main.py. *)
Inductive op :=
  | CreateReservation (today : date) (reservation : ReservationSchema)
  | CheckIn (check_in_request : CheckInSchema) (current_user : UserDisplaySchema).

Definition step (db : DB) (o : op) : DB :=
  match o with
  | CreateReservation today reservation =>
      snd (handle (Reservations.create_reservation (H := Reservations.spec_crud)
                     today reservation) db [])
  | CheckIn check_in_request current_user =>
      snd (handle (Main.check_in_guest check_in_request current_user) db [])
  end.

Definition run_ops (db : DB) (ops : list op) : DB := foldl step db ops.

(** ** Payment amounts *)

Section PaymentAmounts.
Context `{Payments.crud.t}.

End PaymentAmounts.

(** [total_due]: nights times the rate of the room. *)
Definition total_due (booking_record : Booking.t) (room : Room.t) : Z :=
  Booking.number_of_days booking_record * Room.amount room.

(** The discount that counts: the one given, unless it is missing or zero. *)
Definition discount_given (d : option float) : float :=
  match d with
  | Some x => if (x =? 0)%float then 0%float else x
  | None => 0%float
  end.

(** [new_total_payment], written out: from 0, each payment of the booking
    that is not voided adds its amount plus discount, in row order; then the
    amount of the request is added, then its discount.  Every addition is the
    addition of doubles. *)
Definition new_total_payment (db : DB) (booking_id : Z)
    (payment_request : PaymentCreateSchema.t) : float :=
  (fold_left
     (fun total p =>
        if decide (Payment.booking_id p = booking_id ∧ Payment.status p ≠ "voided")
        then total + (Payment.amount_paid p + discount_given (Payment.discount_allowed p))
        else total)
     (payments db) 0
   + PaymentCreateSchema.amount_paid payment_request
   + discount_given (PaymentCreateSchema.discount_allowed payment_request))%float.

(** The exact value of a double: not a number, an infinity with its sign, or
    the rational [±m * 2^e] of its mantissa and exponent. *)
Inductive extended :=
  | NotANumber
  | Infinite (negative : bool)
  | Rational (q : Q).

Definition exact_value (x : float) : extended :=
  match Prim2SF x with
  | S754_nan => NotANumber
  | S754_infinity s => Infinite s
  | S754_zero _ => Rational 0%Q
  | S754_finite s m e =>
      Rational (inject_Z (if s then Z.neg m else Z.pos m) * 2 ^ e)%Q
  end.


(** The value of the double [x] is greater than the integer [z]. *)
Definition exceeds (x : float) (z : Z) : Prop :=
  match exact_value x with
  | NotANumber => False
  | Infinite negative => negative = false
  | Rational q => (inject_Z z < q)%Q
  end.


(** A three-night booking of room 101 at 100 a night, with the payments
    recorded for it so far. *)
Definition three_nights : Booking.t :=
  {| Booking.room_number := "101"; Booking.guest_name := "alice";
     Booking.number_of_days := 3; Booking.booking_cost := Some 300%float;
     Booking.status := "checked-in"; Booking.payment_status := "pending" |}.

Definition noon : datetime := {| tzinfo := Some 0; instant := 1000 |}.

Definition pay (amount : float) : PaymentCreateSchema.t :=
  {| PaymentCreateSchema.amount_paid := amount;
     PaymentCreateSchema.discount_allowed := Some 0%float;
     PaymentCreateSchema.payment_method := "cash";
     PaymentCreateSchema.payment_date := {| tzinfo := Some 0; instant := 900 |};
     PaymentCreateSchema.booking_cost := None |}.

Definition pay_with_discount (amount discount : float) : PaymentCreateSchema.t :=
  {| PaymentCreateSchema.amount_paid := amount;
     PaymentCreateSchema.discount_allowed := Some discount;
     PaymentCreateSchema.payment_method := "cash";
     PaymentCreateSchema.payment_date := {| tzinfo := Some 0; instant := 900 |};
     PaymentCreateSchema.booking_cost := None |}.

Definition discounted_row (id : Z) (amount discount balance : float)
    (status : string) : Payment.t :=
  {| Payment.id := id; Payment.booking_id := 7; Payment.amount_paid := amount;
     Payment.discount_allowed := Some discount; Payment.payment_method := "cash";
     Payment.payment_date := {| tzinfo := Some 0; instant := 900 |};
     Payment.balance_due := balance; Payment.status := status;
     Payment.booking_cost := Some 300%float |}.

Definition paid_row (id : Z) (amount balance : float) (status : string) : Payment.t :=
  {| Payment.id := id; Payment.booking_id := 7; Payment.amount_paid := amount;
     Payment.discount_allowed := Some 0%float; Payment.payment_method := "cash";
     Payment.payment_date := {| tzinfo := Some 0; instant := 900 |};
     Payment.balance_due := balance; Payment.status := status;
     Payment.booking_cost := Some 300%float |}.

Definition ledger (rows : list Payment.t) : DB :=
  {| rooms := {[ "101" := single "checked-in" ]};
     reservations := [];
     bookings := {[ 7 := three_nights ]};
     payments := rows |}.



(** The ledger after 37.71 and then 55.65 with a discount of 206.64 were paid
    on the bill of 300, and the entry of the booking in the debtor list. *)
Definition rounded_ledger : DB :=
  {| rooms := {[ "101" := single "checked-in" ]};
     reservations := [];
     bookings :=
       {[ 7 := Booking.with_payment_status "payment completed" three_nights ]};
     payments := [paid_row 1 37.71 262.29 "payment incomplete";
                  discounted_row 2 55.65 206.64 0 "payment completed"] |}.

(** ** More of src/main.py: rooms, listings, group check-out *)

Module RoomSchema.
(** src/schemas.py; [amount] is a float. *)
Record t := {
  room_number : string;
  room_type : string;
  amount : Q;
  status : string
}.
End RoomSchema.

Module RoomUpdateSchema.
(** src/schemas.py *)
Record t := {
  room_type : option string;
  amount : option Z;
  status : option string
}.
End RoomUpdateSchema.

Definition room_with_type (s : string) (r : Room.t) : Room.t :=
  {| Room.room_type := s; Room.amount := Room.amount r; Room.status := Room.status r |}.
Definition room_with_amount (a : Z) (r : Room.t) : Room.t :=
  {| Room.room_type := Room.room_type r; Room.amount := a; Room.status := Room.status r |}.

(** [db.query(models.Room).all()]: the rows of the rooms table, each with its
    room number. *)
Definition all_rooms (db : DB) : list (string * Room.t) := map_to_list (rooms db).

Definition room_has_status (s : string) (row : string * Room.t) : bool :=
  bool_decide (Room.status row.2 = s).

(** One entry of the [results] list of [check_out_multiple_rooms]. *)
Record GroupResult := {
  gr_room_number : string;
  gr_status : string;
  gr_message : fstring
}.

(** One entry of [reserved_rooms] in the answer of [list_reserved_rooms]. *)
Record ReservedRoom := {
  rr_room_number : string;
  rr_room_type : string;
  rr_guest_name : string;
  rr_arrival_date : date;
  rr_departure_date : date
}.

(** The answer of [room_summary]. *)
Record RoomSummary := {
  total_rooms : Z;
  rooms_checked_in : Z;
  rooms_reserved : Z;
  rooms_available : Z;
  summary_message : fstring
}.

(** The answer of [list_available_rooms]. *)
Record AvailableRooms := {
  av_message : option fstring;
  total_available_rooms : Z;
  available_rooms : list (string * Room.t)
}.

Module MainRooms.

Section Rooms.
(** What the Integer column [amount] keeps of the float of the request. *)
Variable integer_column : Q → Z.

(** src/crud.py *)
Definition crud_create_room (room : RoomSchema.t) : M Room.t :=
  let db_room :=
    {| Room.room_type := RoomSchema.room_type room;
       Room.amount := integer_column (RoomSchema.amount room);
       Room.status := RoomSchema.status room |} in
  write (set_rooms (insert (RoomSchema.room_number room) db_room));;
  commit;;
  mret db_room.

Definition create_room (room : RoomSchema.t) (current_user : UserDisplaySchema)
    : M (fstring * Room.t) :=
  if decide (role current_user ≠ "admin")
  then raise (HTTPException 403 [Txt "Insufficient permissions"])
  else
    existing_room ← query (fun db => rooms db !! RoomSchema.room_number room);
    match existing_room with
    | Some _ =>
        raise (HTTPException 400 [Txt "Room with this number already exists"])
    | None =>
        new_room ← crud_create_room room;
        mret ([Txt "Room created successfully"], new_room)
    end.

End Rooms.

Definition list_available_rooms : M AvailableRooms :=
  available_rooms ←
    query (fun db => List.filter (room_has_status "available") (all_rooms db));
  let total_available_rooms := Z.of_nat (length available_rooms) in
  if decide (total_available_rooms = 0)
  then mret {| av_message := Some [Txt "We are fully booked!"];
               total_available_rooms := 0;
               available_rooms := [] |}
  else mret {| av_message := None;
               total_available_rooms := total_available_rooms;
               available_rooms := available_rooms |}.

Definition list_checked_in_rooms : M (fstring + list (string * Room.t) * Z) :=
  checked_in_rooms ←
    query (fun db => List.filter (room_has_status "checked-in") (all_rooms db));
  let total_checked_in_rooms := Z.of_nat (length checked_in_rooms) in
  if decide (total_checked_in_rooms = 0)
  then mret (inl [Txt "No rooms are currently checked-in."])
  else mret (inr (checked_in_rooms, total_checked_in_rooms)).

(** The assignments and the status check of [update_room], shared by the two
    versions of the handler: fields are written as they are given, and an
    unknown status is refused after the earlier fields were assigned. *)
Definition apply_room_update (room_number : string) (room_update : RoomUpdateSchema.t)
    : M unit :=
  match RoomUpdateSchema.room_type room_update with
  | Some s =>
      if decide (s = "") then mret tt
      else write (set_rooms (alter (room_with_type s) room_number))
  | None => mret tt
  end;;
  match RoomUpdateSchema.amount room_update with
  | Some a => write (set_rooms (alter (room_with_amount a) room_number))
  | None => mret tt
  end;;
  match RoomUpdateSchema.status room_update with
  | Some s =>
      if decide (s = "") then mret tt
      else if decide (s ∉ ["available"; "booked"; "maintenance"])
      then raise (HTTPException 400 [Txt "Invalid status value"])
      else write (set_rooms (alter (Room.with_status s) room_number))
  | None => mret tt
  end.

(** [db.refresh(room)] and the room of the answer. *)
Definition refreshed_room (room_number : string) : M Room.t :=
  room ← query (fun db => rooms db !! room_number);
  match room with
  | Some room => mret room
  | None => raise SQLAlchemyError
  end.

Definition update_room (room_number : string) (room_update : RoomUpdateSchema.t)
    (current_user : UserDisplaySchema) : M (fstring * Room.t) :=
  if decide (role current_user ≠ "admin")
  then raise (HTTPException 403 [Txt "Insufficient permissions"])
  else
    room ← query (fun db => rooms db !! room_number);
    match room with
    | None => raise (HTTPException 404 [Txt "Room not found"])
    | Some _ =>
        apply_room_update room_number room_update;;
        commit;;
        room ← refreshed_room room_number;
        mret ([Txt "Room updated successfully"], room)
    end.

Definition room_summary (current_user : UserDisplaySchema) : M RoomSummary :=
  total_rooms ← query (fun db => Z.of_nat (length (all_rooms db)));
  total_checked_in_rooms ←
    query (fun db => Z.of_nat (length (List.filter (room_has_status "checked-in")
                                         (all_rooms db))));
  total_reserved_rooms ←
    query (fun db => Z.of_nat (length (List.filter (room_has_status "reserved")
                                         (all_rooms db))));
  total_available_rooms ←
    query (fun db => Z.of_nat (length (List.filter (room_has_status "available")
                                         (all_rooms db))));
  let message :=
    if decide (total_available_rooms = 0)
    then [Txt "Fully booked!"]
    else [Int total_available_rooms; Txt " room(s) available."] in
  mret {| total_rooms := total_rooms;
          rooms_checked_in := total_checked_in_rooms;
          rooms_reserved := total_reserved_rooms;
          rooms_available := total_available_rooms;
          summary_message := message |}.

(** The join of rooms and reservations on the room number, kept for the
    rooms whose status is "reserved". *)
Definition reserved_join (db : DB) : list ReservedRoom :=
  row ← List.filter (room_has_status "reserved") (all_rooms db);
  r ← List.filter (fun r => bool_decide (Reservation.room_number r = row.1))
         (reservations db);
  [ {| rr_room_number := row.1;
       rr_room_type := Room.room_type row.2;
       rr_guest_name := Reservation.guest_name r;
       rr_arrival_date := Reservation.arrival_date r;
       rr_departure_date := Reservation.departure_date r |} ].

Definition list_reserved_rooms : M (Z * list ReservedRoom) :=
  reserved_rooms ← query reserved_join;
  let total_reserved_rooms := Z.of_nat (length reserved_rooms) in
  mret (total_reserved_rooms, reserved_rooms).

Definition is_booked (room_number : string) (r : Reservation.t) : bool :=
  bool_decide (Reservation.room_number r = room_number)
  && bool_decide (Reservation.status r = "booked").

(** The loop of [check_out_multiple_rooms], [results] being the list built so
    far. *)
Fixpoint check_out_each (room_numbers : list string) (results : list GroupResult)
    : M (list GroupResult) :=
  match room_numbers with
  | [] => mret results
  | room_number :: room_numbers =>
      room ← query (fun db => rooms db !! room_number);
      match room with
      | None =>
          check_out_each room_numbers
            (results ++ [ {| gr_room_number := room_number; gr_status := "error";
                             gr_message := [Txt "Room does not exist."] |} ])%list
      | Some _ =>
          reservation ←
            query (fun db => first (is_booked room_number) (reservations db));
          match reservation with
          | None =>
              check_out_each room_numbers
                (results ++ [ {| gr_room_number := room_number; gr_status := "error";
                                 gr_message := [Txt "Room is not currently booked."] |} ])%list
          | Some reservation =>
              result ←
                try_except
                  (set_reservation_status (Reservation.id reservation) "checked-out";;
                   commit;;
                   set_room_status room_number "available";;
                   commit;;
                   mret {| gr_room_number := room_number; gr_status := "success";
                           gr_message := [Txt "Room "; Str room_number;
                                          Txt " successfully checked out."] |})
                  any_exception
                  (rollback;;
                   mret {| gr_room_number := room_number; gr_status := "error";
                           gr_message := [ExcStr] |});
              check_out_each room_numbers (results ++ [result])%list
          end
      end
  end.

Definition check_out_multiple_rooms (room_numbers : list string)
    (current_user : UserDisplaySchema) : M (list GroupResult) :=
  check_out_each room_numbers [].

End MainRooms.

(** ** src/app/rooms/router.py: updating and deleting a room *)

Module Rooms.

Definition update_room (room_number : string) (room_update : RoomUpdateSchema.t)
    (current_user : UserDisplaySchema) : M (fstring * Room.t) :=
  if decide (role current_user ≠ "admin")
  then raise (HTTPException 403 [Txt "Insufficient permissions"])
  else
    room ← query (fun db => rooms db !! room_number);
    match room with
    | None => raise (HTTPException 404 [Txt "Room not found"])
    | Some room =>
        if decide (Room.status room = "checked-in")
        then raise (HTTPException 400
                      [Txt "Room cannot be updated as it is currently checked-in"])
        else
          MainRooms.apply_room_update room_number room_update;;
          commit;;
          room ← MainRooms.refreshed_room room_number;
          mret ([Txt "Room updated successfully"], room)
    end.

Section DeleteRoom.
(** [db.delete(room)]: the row of the room goes; what happens to the rows
    that refer to the room is decided by mappings that are not all among the
    sources, so it is left open here. *)
Variable delete_room_row : string → DB → DB.

Definition delete_room (room_number : string) (current_user : UserDisplaySchema)
    : M fstring :=
  if decide (role current_user ≠ "admin")
  then raise (HTTPException 403 [Txt "Insufficient permissions"])
  else
    room ← query (fun db => rooms db !! room_number);
    match room with
    | None => raise (HTTPException 404 [Txt "Room not found"])
    | Some room =>
        if decide (Room.status room ∈ ["checked-in"; "reserved"])
        then raise (HTTPException 400
                      [Txt "Room "; Str room_number;
                       Txt " cannot be deleted as it is currently ";
                       Str (Room.status room); Txt "."])
        else
          try_except
            (write (delete_room_row room_number);;
             commit;;
             mret [Txt "Room "; Str room_number; Txt " deleted successfully"])
            any_exception
            (rollback;;
             raise (HTTPException 500
                      [Txt "An error occurred while deleting the room: "; ExcStr]))
    end.

End DeleteRoom.

End Rooms.

(** ** src/app/payments/router.py: the debtor list *)

(** One entry of [debtors]. *)
Record Debtor := {
  d_guest_name : string;
  d_room_number : string;
  d_booking_id : Z;
  d_room_price : Z;
  d_number_of_days : Z;
  d_total_due : Z;
  d_total_paid : number;
  d_amount_due : number
}.

Module Debtors.

(** [db.query(Booking).filter(Booking.status != "cancelled").all()], each row
    with its id. *)
Definition open_bookings (db : DB) : list (Z * Booking.t) :=
  List.filter (fun row => bool_decide (Booking.status row.2 ≠ "cancelled"))
    (map_to_list (bookings db)).

(** [total_paid]: [sum] starts from the int 0, and is a float as soon as
    there is a payment to add. *)
Definition total_paid (db : DB) (id : Z) : number :=
  match Payments.paid <$> List.filter (Payments.not_voided_of id) (payments db) with
  | [] => PyInt 0
  | amounts => PyFloat (Payments.sum amounts)
  end.

(** [balance_due = total_due - total_paid], [total_due] being an int. *)
Definition balance_due (db : DB) (id : Z) (booking : Booking.t) (room : Room.t)
    : option number :=
  py_sub (PyInt (Booking.number_of_days booking * Room.amount room)) (total_paid db id).

Definition debtor_entry (db : DB) (id : Z) (booking : Booking.t) (room : Room.t)
    (balance_due : number) : Debtor :=
  {| d_guest_name := Booking.guest_name booking;
     d_room_number := Booking.room_number booking;
     d_booking_id := id;
     d_room_price := Room.amount room;
     d_number_of_days := Booking.number_of_days booking;
     d_total_due := Booking.number_of_days booking * Room.amount room;
     d_total_paid := total_paid db id;
     d_amount_due := balance_due |}.

(** The body of the loop over the bookings: [debtor_list] and
    [total_debt_amount] after one more booking. *)
Definition visit (db : DB) (acc : list Debtor * number) (row : Z * Booking.t)
    : option (list Debtor * number) :=
  match rooms db !! Booking.room_number row.2 with
  | None => Some acc
  | Some room =>
      balance_due ← balance_due db row.1 row.2 room;
      if py_positive balance_due
      then
        total_debt_amount ← py_add acc.2 balance_due;
        Some ((acc.1 ++ [debtor_entry db row.1 row.2 room balance_due])%list,
              total_debt_amount)
      else Some acc
  end.

Definition get_debtor_list (current_user : UserDisplaySchema)
    : M (fstring + Z * number * list Debtor) :=
  try_except
    (bookings ← query open_bookings;
     match bookings with
     | [] => mret (inl [Txt "No Debtor bookings found."])
     | _ =>
         result ← query (fun db => for_each (visit db) bookings ([], PyInt 0));
         match result with
         | None => raise OverflowError
         | Some (debtor_list, total_debt_amount) =>
             match debtor_list with
             | [] => mret (inl [Txt "No debtors found."])
             | _ => mret (inr (Z.of_nat (length debtor_list), total_debt_amount,
                               debtor_list))
             end
         end
     end)
    any_exception
    (raise (HTTPException 500
              [Txt "An error occurred while retrieving the debtor list."])).

End Debtors.

(** What [payment.status = "voided"] makes of each row when the payment
    loaded has primary key [i]. *)
Definition void_row (i : Z) (p : Payment.t) : Payment.t :=
  if decide (Payment.id p = i) then Payment.with_status "voided" p else p.



(** A Python number is above zero. *)
Definition positive (n : number) : Prop :=
  match n with
  | PyInt z => 0 < z
  | PyFloat f => (0 <? f)%float = true
  end.

(** The entry of the booking of [rounded_ledger] in the debtor list. *)
Definition rounded_debtor : Debtor :=
  {| d_guest_name := "alice"; d_room_number := "101"; d_booking_id := 7;
     d_room_price := 100; d_number_of_days := 3; d_total_due := 300;
     d_total_paid := PyFloat 299.99999999999994;
     d_amount_due := PyFloat 5.6843418860808015e-14 |}.




(** The room [update_room] stores for an update it accepts: the fields given
    replace the old ones, an empty room type or status counting as not
    given. *)
Definition room_update_of (room_update : RoomUpdateSchema.t) (room : Room.t) : Room.t :=
  let room1 :=
    match RoomUpdateSchema.room_type room_update with
    | Some s => if decide (s = "") then room else room_with_type s room
    | None => room
    end in
  let room2 :=
    match RoomUpdateSchema.amount room_update with
    | Some a => room_with_amount a room1
    | None => room1
    end in
  match RoomUpdateSchema.status room_update with
  | Some s => if decide (s = "") then room2 else Room.with_status s room2
  | None => room2
  end.

(** The status of the update, when given, is one [update_room] accepts. *)
Definition valid_status (room_update : RoomUpdateSchema.t) : Prop :=
  match RoomUpdateSchema.status room_update with
  | Some s => s = "" ∨ s ∈ ["available"; "booked"; "maintenance"]
  | None => True
  end.

(** No stored stay has the status "booked". *)
Definition no_booked (db : DB) : Prop :=
  ∀ r, r ∈ reservations db → Reservation.status r ≠ "booked".

(** The entry [check_out_multiple_rooms] gives for a room it does not check
    out. *)
Definition not_checked_out (db : DB) (room_number : string) : GroupResult :=
  {| gr_room_number := room_number; gr_status := "error";
     gr_message := match rooms db !! room_number with
                   | None => [Txt "Room does not exist."]
                   | Some _ => [Txt "Room is not currently booked."]
                   end |}.

(** * Properties *)

(** Unfolding one request down to the session primitives. *)
Ltac run :=
  unfold handle, add_reservation, set_room_status, set_reservation_status,
    delete_reservation_row, mbind, M_bind, mret, M_ret, bind, ret, raise,
    query, write, commit, rollback, try_except in *;
  cbn [committed pending faults fst snd] in *.

Lemma first_Some {A} (P : A → bool) (l : list A) (x : A) :
  first P l = Some x → x ∈ l ∧ P x = true.
Proof.
  unfold first. intros Hf. apply find_some in Hf as [Hin HP].
  split; [by apply list_elem_of_In | done].
Qed.

Lemma first_None {A} (P : A → bool) (l : list A) :
  first P l = None → ∀ x, x ∈ l → P x = false.
Proof.
  unfold first. intros Hf x Hin. apply list_elem_of_In in Hin.
  by apply (find_none _ _ Hf).
Qed.

Lemma first_is_Some {A} (P : A → bool) (l : list A) (x : A) :
  x ∈ l → P x = true → is_Some (first P l).
Proof.
  intros Hin HP. destruct (first P l) eqn:Hf; [by eexists |].
  by rewrite (first_None _ _ Hf x Hin) in HP.
Qed.

(** ** The conflict test of main.py *)

Lemma overlaps_request_spec reservation r :
  Main.overlaps_request reservation r = true
  ↔ Reservation.room_number r = rs_room_number reservation
    ∧ Reservation.arrival_date r ≤ rs_departure_date reservation
    ∧ rs_arrival_date reservation ≤ Reservation.departure_date r.
Proof.
  unfold Main.overlaps_request.
  rewrite !andb_true_iff, bool_decide_eq_true, Z.leb_le, Z.geb_le. tauto.
Qed.



(** ** Creating a reservation (app/reservations/router.py) *)

Section CreateReservation.
Context `{Reservations.Crud}.

Lemma create_reservation_admissible db fs today reservation room :
  admissible db today reservation room →
  handle (Reservations.create_reservation today reservation) db fs
  = match Reservations.check_overlapping_check_in db (rs_room_number reservation)
            (rs_arrival_date reservation) (rs_departure_date reservation) with
    | Some c =>
        (Raise (HTTPException 400
           [Txt "Room "; Str (rs_room_number reservation);
            Txt " is already checked in by another guest from ";
            Day (Reservation.arrival_date c); Txt " to ";
            Day (Reservation.departure_date c); Txt "."]), db)
    | None =>
        match Reservations.check_overlapping_reservations db
                (rs_room_number reservation)
                (rs_arrival_date reservation) (rs_departure_date reservation) with
        | Some o =>
            (Raise (HTTPException 400
               [Txt "Room "; Str (rs_room_number reservation);
                Txt " is already occupied or reserved from ";
                Day (Reservation.arrival_date o); Txt " to ";
                Day (Reservation.departure_date o); Txt "."]), db)
        | None =>
            if decide (Room.status room = "maintenance")
            then (Raise (HTTPException 400
                    [Txt "Room "; Str (rs_room_number reservation);
                     Txt " is under maintenance and cannot be reserved."]), db)
            else
              let row :=
                {| Reservation.id := next_id (Reservation.id <$> reservations db);
                   Reservation.room_number := rs_room_number reservation;
                   Reservation.guest_name := rs_guest_name reservation;
                   Reservation.arrival_date := rs_arrival_date reservation;
                   Reservation.departure_date := rs_departure_date reservation;
                   Reservation.status := "reserved" |} in
              let db1 := set_reservations (fun l => (l ++ [row])%list) db in
              let db2 :=
                set_rooms (alter (Room.with_status "reserved")
                             (rs_room_number reservation)) db1 in
              match fs with
              | true :: _ => (Raise (HTTPException 500 error_occurred), db)
              | _ :: true :: _ => (Raise (HTTPException 500 error_occurred), db1)
              | _ => (Return ([Txt "Reservation created successfully."], row), db2)
              end
        end
    end.
Proof.
  intros (Hrn & Hdates & Htoday & Hroom).
  unfold Reservations.create_reservation.
  destruct (decide (rs_room_number reservation = "")); [done |].
  destruct (decide (rs_arrival_date reservation > rs_departure_date reservation));
    [lia |].
  destruct (decide (rs_arrival_date reservation ≤ today)); [lia |].
  run. rewrite Hroom.
  destruct (Reservations.check_overlapping_check_in _ _ _ _); [done |].
  destruct (Reservations.check_overlapping_reservations _ _ _ _); [done |].
  destruct (decide (Room.status room = "maintenance")); [done |].
  cbn. destruct fs as [|[] [|[] fs]]; reflexivity.
Qed.

(** C7. When the availability queries find both a conflicting check-in and
    a conflicting reservation for the requested room and dates, the request
    is refused with the check-in error, carrying the dates of that check-in;
    the reservation conflict is only reported when no check-in conflicts. *)
Theorem check_in_conflict_reported_first db fs today reservation room c o :
  admissible db today reservation room →
  Reservations.check_overlapping_check_in db (rs_room_number reservation)
    (rs_arrival_date reservation) (rs_departure_date reservation) = Some c →
  Reservations.check_overlapping_reservations db (rs_room_number reservation)
    (rs_arrival_date reservation) (rs_departure_date reservation) = Some o →
  handle (Reservations.create_reservation today reservation) db fs
  = (Raise (HTTPException 400
       [Txt "Room "; Str (rs_room_number reservation);
        Txt " is already checked in by another guest from ";
        Day (Reservation.arrival_date c); Txt " to ";
        Day (Reservation.departure_date c); Txt "."]), db).
Proof.
  intros Hadm Hc _. rewrite (create_reservation_admissible _ _ _ _ _ Hadm).
  by rewrite Hc.
Qed.

(** C9. For a room that is not under maintenance, an admissible request is
    accepted exactly when neither availability query reports a conflict,
    whatever status the room has; the reservation is then stored and the
    room marked reserved. *)
Theorem room_status_only_blocks_maintenance db today reservation room :
  admissible db today reservation room →
  Room.status room ≠ "maintenance" →
  (Reservations.check_overlapping_check_in db (rs_room_number reservation)
     (rs_arrival_date reservation) (rs_departure_date reservation) = None
   ∧ Reservations.check_overlapping_reservations db (rs_room_number reservation)
       (rs_arrival_date reservation) (rs_departure_date reservation) = None)
  ↔ ∃ row db',
      handle (Reservations.create_reservation today reservation) db []
      = (Return ([Txt "Reservation created successfully."], row), db')
      ∧ Reservation.status row = "reserved"
      ∧ row ∈ reservations db'
      ∧ Room.status <$> rooms db' !! rs_room_number reservation = Some "reserved".
Proof.
  intros Hadm Hst. rewrite (create_reservation_admissible _ _ _ _ _ Hadm).
  split.
  - intros [-> ->]. destruct (decide _) as [|_]; [done |].
    eexists _, _. split; [reflexivity |]. split; [done |]. split.
    + cbn. apply elem_of_app. right. apply list_elem_of_here.
    + cbn. destruct Hadm as (_ & _ & _ & Hroom).
      rewrite lookup_alter_eq, Hroom. done.
  - intros (row & db' & Hrun & _).
    destruct (Reservations.check_overlapping_check_in _ _ _ _); [done |].
    destruct (Reservations.check_overlapping_reservations _ _ _ _); done.
Qed.

End CreateReservation.

Lemma check_in_conflict_reported_first_witness :
  handle (Reservations.create_reservation (H := Reservations.spec_crud) 3
            (reserve "101" "carol" 4 9))
    (hotel "reserved" [stay 1 "101" "alice" 1 5 "checked-in";
                       stay 2 "101" "bob" 8 12 "reserved"]) []
  = (Raise (HTTPException 400
       [Txt "Room "; Str "101";
        Txt " is already checked in by another guest from ";
        Day 1; Txt " to "; Day 5; Txt "."]),
     hotel "reserved" [stay 1 "101" "alice" 1 5 "checked-in";
                       stay 2 "101" "bob" 8 12 "reserved"]).
Proof.
  apply (check_in_conflict_reported_first (H := Reservations.spec_crud)
           _ [] 3 (reserve "101" "carol" 4 9) (single "reserved")
           (stay 1 "101" "alice" 1 5 "checked-in")
           (stay 2 "101" "bob" 8 12 "reserved")).
  - unfold admissible; simpl; split_and!; [discriminate | lia | lia | reflexivity].
  - reflexivity.
  - reflexivity.
Defined.

Lemma room_status_only_blocks_maintenance_witness :
  (∃ row db',
     handle (Reservations.create_reservation (H := Reservations.spec_crud) 3
               (reserve "101" "carol" 20 25))
       (hotel "reserved" [stay 1 "101" "bob" 8 12 "reserved"]) []
     = (Return ([Txt "Reservation created successfully."], row), db')
     ∧ Reservation.status row = "reserved"
     ∧ row ∈ reservations db'
     ∧ Room.status <$> rooms db' !! "101" = Some "reserved")
  ∧ (∃ row db',
       handle (Reservations.create_reservation (H := Reservations.spec_crud) 3
                 (reserve "101" "carol" 20 25))
         (hotel "checked-in" [stay 1 "101" "alice" 1 5 "checked-in"]) []
       = (Return ([Txt "Reservation created successfully."], row), db')
       ∧ Reservation.status row = "reserved"
       ∧ row ∈ reservations db'
       ∧ Room.status <$> rooms db' !! "101" = Some "reserved").
Proof.
  split.
  - apply (room_status_only_blocks_maintenance (H := Reservations.spec_crud)
             (hotel "reserved" [stay 1 "101" "bob" 8 12 "reserved"]) 3
             (reserve "101" "carol" 20 25) (single "reserved")).
    + unfold admissible; simpl; split_and!; [discriminate | lia | lia | reflexivity].
    + simpl. discriminate.
    + split; reflexivity.
  - apply (room_status_only_blocks_maintenance (H := Reservations.spec_crud)
             (hotel "checked-in" [stay 1 "101" "alice" 1 5 "checked-in"]) 3
             (reserve "101" "carol" 20 25) (single "checked-in")).
    + unfold admissible; simpl; split_and!; [discriminate | lia | lia | reflexivity].
    + simpl. discriminate.
    + split; reflexivity.
Defined.

(** ** Cancelling a reservation *)

Lemma main_cancel_denied db fs room_number current_user :
  role current_user ≠ "admin" →
  handle (Main.cancel_reservation room_number current_user) db fs
  = (Raise (HTTPException 403
       [Txt "You do not have permission to cancel reservations."]), db).
Proof.
  intros Hrole. unfold Main.cancel_reservation.
  destruct (decide (role current_user ≠ "admin")); [| done].
  by run.
Qed.

(** C8 as stated fails on [delete_reservation]: a caller who is neither admin
    nor the named guest, asking for a reservation that does not exist, is
    answered 404 and not 403. *)
Lemma delete_reservation_not_found_before_permission :
  handle (Reservations.delete_reservation "101" "alice" bob) (hotel "available" []) []
  = (Raise (HTTPException 404
       [Txt "No reservation found for room "; Str "101";
        Txt " and guest "; Str "alice"; Txt "."]),
     hotel "available" [])
  ∧ ¬ ∃ detail,
        fst (handle (Reservations.delete_reservation "101" "alice" bob)
               (hotel "available" []) [])
        = Raise (HTTPException 403 detail).
Proof.
  split; [reflexivity |]. intros [detail Hd]. vm_compute in Hd. discriminate.
Qed.

(** C8, amended. A caller who is neither admin nor the guest of the
    reservation never cancels anything: [delete_reservation] answers 403 when
    the reservation exists and 404 when it does not, [cancel_reservation] of
    main.py answers 403 to every caller who is not admin, and in each case the
    stored reservations and room statuses are left as they were. *)
Theorem cancel_denied_leaves_store db fs room_number guest_name current_user :
  role current_user ≠ "admin" →
  username current_user ≠ guest_name →
  handle (Reservations.delete_reservation room_number guest_name current_user) db fs
  = (Raise
       (match first (Reservations.of_room_and_guest room_number guest_name)
                (reservations db) with
        | Some _ =>
            HTTPException 403
              [Txt "You do not have permission to delete this reservation."]
        | None =>
            HTTPException 404
              [Txt "No reservation found for room "; Str room_number;
               Txt " and guest "; Str guest_name; Txt "."]
        end), db)
  ∧ handle (Main.cancel_reservation room_number current_user) db fs
    = (Raise (HTTPException 403
         [Txt "You do not have permission to cancel reservations."]), db).
Proof.
  intros Hrole Huser. split; [| by apply main_cancel_denied].
  unfold Reservations.delete_reservation. run.
  destruct (first _ _) as [r|] eqn:Hfind; [| done].
  apply first_Some in Hfind as [_ Hr].
  unfold Reservations.of_room_and_guest in Hr.
  apply andb_true_iff in Hr as [_ Hg%bool_decide_eq_true].
  destruct (decide (_ ∧ _)) as [|Hn]; [done |].
  exfalso. apply Hn. split; [done | congruence].
Qed.

Lemma cancel_denied_leaves_store_witness :
  handle (Reservations.delete_reservation "101" "alice" bob)
    (hotel "reserved" [stay 1 "101" "alice" 8 12 "reserved"]) []
  = (Raise (HTTPException 403
       [Txt "You do not have permission to delete this reservation."]),
     hotel "reserved" [stay 1 "101" "alice" 8 12 "reserved"])
  ∧ handle (Main.cancel_reservation "101" bob)
      (hotel "reserved" [stay 1 "101" "alice" 8 12 "reserved"]) []
    = (Raise (HTTPException 403
         [Txt "You do not have permission to cancel reservations."]),
       hotel "reserved" [stay 1 "101" "alice" 8 12 "reserved"]).
Proof.
  apply (cancel_denied_leaves_store
           (hotel "reserved" [stay 1 "101" "alice" 8 12 "reserved"]) []
           "101" "alice" bob).
  - simpl. discriminate.
  - simpl. discriminate.
Defined.

(** ** Writes and commits *)

(** C2. Each lifecycle handler commits its first write before it makes the
    second: when the store fails at the second [db.commit()] the handler rolls
    back and answers 500, but the first write is already stored.  A
    reservation is stored while the room is still "available" (creation and
    check-in), the stay is checked out while the room is still "checked-in",
    the reservation is deleted while the room is still "reserved". *)
Theorem second_commit_failure_keeps_first_write :
  handle (Reservations.create_reservation (H := Reservations.spec_crud) 3
            (reserve "101" "carol" 20 25))
    (hotel "available" []) [false; true]
  = (Raise (HTTPException 500 error_occurred),
     hotel "available" [stay 1 "101" "carol" 20 25 "reserved"])
  ∧ handle (Main.check_in_guest (check_in "101" "alice" 1 5) admin)
      (hotel "available" []) [false; true]
    = (Raise (HTTPException 500 error_occurred),
       hotel "available" [stay 1 "101" "alice" 1 5 "checked-in"])
  ∧ handle (Main.check_out_guest "101" admin)
      (hotel "checked-in" [stay 1 "101" "alice" 1 5 "checked-in"]) [false; true]
    = (Raise (HTTPException 500 error_occurred),
       hotel "checked-in" [stay 1 "101" "alice" 1 5 "checked-out"])
  ∧ handle (Reservations.delete_reservation "101" "carol" admin)
      (hotel "reserved" [stay 1 "101" "carol" 20 25 "reserved"]) [false; true]
    = (Raise (HTTPException 500
         [Txt "An error occurred while deleting the reservation: "; ExcStr]),
       hotel "reserved" []).
Proof. repeat split; vm_compute; reflexivity. Qed.

(** ** Room status after check-out *)

Lemma check_in_then_reserve :
  snd (handle (Reservations.create_reservation (H := Reservations.spec_crud) 0
                 (reserve "101" "bob" 10 20))
         (snd (handle (Main.check_in_guest (check_in "101" "alice" 1 5) admin)
                 (hotel "available" []) [])) [])
  = hotel "reserved" [stay 1 "101" "alice" 1 5 "checked-in";
                      stay 2 "101" "bob" 10 20 "reserved"].
Proof. vm_compute. reflexivity. Qed.

(** C4. [check_out_guest] sets the room "available" without looking at the
    other stays of the room: after a check-in and a later reservation of room
    101, checking the guest out leaves the room "available" although the
    reservation is still active. *)
Theorem check_out_sets_available_unconditionally :
  ∃ r db',
    handle (Main.check_out_guest "101" admin)
      (hotel "reserved" [stay 1 "101" "alice" 1 5 "checked-in";
                         stay 2 "101" "bob" 10 20 "reserved"]) []
    = (Return r, db')
    ∧ Room.status <$> rooms db' !! "101" = Some "available"
    ∧ stay 2 "101" "bob" 10 20 "reserved" ∈ reservations db'
    ∧ active (stay 2 "101" "bob" 10 20 "reserved").
Proof.
  eexists _, _. split; [vm_compute; reflexivity |].
  split; [reflexivity |]. split; [| by left].
  apply list_elem_of_In. simpl. auto.
Qed.

(** The other path, [delete_reservation], counts the reservations left for
    the room before it touches the status of the room. *)
Example delete_reservation_counts_remaining :
  handle (Reservations.delete_reservation "101" "alice" admin)
    (hotel "reserved" [stay 1 "101" "alice" 8 12 "reserved";
                       stay 2 "101" "bob" 20 25 "reserved"]) []
  = (Return ([Txt "Reservation for room "; Str "101"; Txt " and guest ";
              Str "alice"; Txt " successfully deleted."], "reserved"),
     hotel "reserved" [stay 2 "101" "bob" 20 25 "reserved"])
  ∧ handle (Reservations.delete_reservation "101" "bob" admin)
      (hotel "reserved" [stay 2 "101" "bob" 20 25 "reserved"]) []
    = (Return ([Txt "Reservation for room "; Str "101"; Txt " and guest ";
                Str "bob"; Txt " successfully deleted."], "available"),
       hotel "available" []).
Proof. split; vm_compute; reflexivity. Qed.

(** ** Stays of one room never overlap *)

Lemma overlap_sym r1 r2 : overlap r1 r2 → overlap r2 r1.
Proof. unfold overlap. tauto. Qed.

(** Storing a new stay and giving its room a status other than "available"
    keeps both invariants, provided the new stay meets no active stay of the
    room. *)
Lemma store_stay_preserves db row s :
  s ≠ "available" →
  (∀ r, r ∈ reservations db →
        Reservation.room_number r = Reservation.room_number row →
        active r → ¬ overlap r row) →
  non_overlapping db → available_rooms_free db →
  let db' :=
    set_rooms (alter (Room.with_status s) (Reservation.room_number row))
      (set_reservations (fun l => (l ++ [row])%list) db) in
  non_overlapping db' ∧ available_rooms_free db'.
Proof.
  intros Hs Hnew Hno Hfree db'. split.
  - intros i j r1 r2 Hij H1 H2 Hroom A1 A2. cbn in H1, H2.
    apply lookup_snoc_Some in H1 as [[_ H1]|[Hi <-]];
      apply lookup_snoc_Some in H2 as [[_ H2]|[Hj <-]].
    + by apply (Hno i j r1 r2).
    + apply Hnew; [by eapply list_elem_of_lookup_2 | done | done].
    + intros Hov%overlap_sym. revert Hov.
      apply Hnew; [by eapply list_elem_of_lookup_2 | done | done].
    + lia.
  - intros r room Hin Hroom Hst Hact. cbn in Hin, Hroom.
    destruct (decide (Reservation.room_number r = Reservation.room_number row))
      as [Heq|Hne].
    + rewrite Heq, lookup_alter_eq in Hroom.
      destruct (rooms db !! Reservation.room_number row) as [room0|];
        simplify_eq/=; done.
    + rewrite lookup_alter_ne in Hroom by done.
      apply elem_of_app in Hin as [Hin|Hin%list_elem_of_singleton].
      * by apply (Hfree r room).
      * by subst.
Qed.

Lemma check_in_guest_run db check_in_request current_user :
  handle (Main.check_in_guest check_in_request current_user) db []
  = match rooms db !! ci_room_number check_in_request with
    | None => (Raise (HTTPException 404 [Txt "Room not found"]), db)
    | Some room =>
        if decide (Room.status room ≠ "available")
        then (Raise (HTTPException 400 [Txt "Room is not available for check-in"]), db)
        else
          let row :=
            {| Reservation.id := next_id (Reservation.id <$> reservations db);
               Reservation.room_number := ci_room_number check_in_request;
               Reservation.guest_name := ci_guest_name check_in_request;
               Reservation.arrival_date := ci_arrival_date check_in_request;
               Reservation.departure_date := ci_departure_date check_in_request;
               Reservation.status := "checked-in" |} in
          (Return ([Txt "Guest "; Str (ci_guest_name check_in_request);
                    Txt " successfully checked into room ";
                    Str (ci_room_number check_in_request)], row),
           set_rooms (alter (Room.with_status "checked-in")
                        (ci_room_number check_in_request))
             (set_reservations (fun l => (l ++ [row])%list) db))
    end.
Proof.
  unfold Main.check_in_guest. run.
  destruct (rooms db !! ci_room_number check_in_request) as [room|]; [| done].
  destruct (decide (Room.status room ≠ "available")); done.
Qed.

Lemma create_reservation_run db today reservation :
  snd (handle (Reservations.create_reservation (H := Reservations.spec_crud)
                 today reservation) db []) = db
  ∨ ∃ row,
      Reservation.room_number row = rs_room_number reservation
      ∧ Reservation.arrival_date row = rs_arrival_date reservation
      ∧ Reservation.departure_date row = rs_departure_date reservation
      ∧ first (Reservations.conflicting "checked-in" (rs_room_number reservation)
                 (rs_arrival_date reservation) (rs_departure_date reservation))
          (reservations db) = None
      ∧ first (Reservations.conflicting "reserved" (rs_room_number reservation)
                 (rs_arrival_date reservation) (rs_departure_date reservation))
          (reservations db) = None
      ∧ snd (handle (Reservations.create_reservation (H := Reservations.spec_crud)
                       today reservation) db [])
        = set_rooms (alter (Room.with_status "reserved") (rs_room_number reservation))
            (set_reservations (fun l => (l ++ [row])%list) db).
Proof.
  destruct (decide (rs_room_number reservation = "")) as [Hrn|Hrn].
  { left. unfold Reservations.create_reservation.
    destruct (decide (rs_room_number reservation = "")); done. }
  destruct (decide (rs_arrival_date reservation > rs_departure_date reservation))
    as [Hd|Hd].
  { left. unfold Reservations.create_reservation.
    destruct (decide (rs_room_number reservation = "")); [done |].
    destruct (decide (rs_arrival_date reservation > rs_departure_date reservation));
      done. }
  destruct (decide (rs_arrival_date reservation ≤ today)) as [Ht|Ht].
  { left. unfold Reservations.create_reservation.
    destruct (decide (rs_room_number reservation = "")); [done |].
    destruct (decide (rs_arrival_date reservation > rs_departure_date reservation));
      [done |].
    destruct (decide (rs_arrival_date reservation ≤ today)); done. }
  destruct (rooms db !! rs_room_number reservation) as [room|] eqn:Hroom.
  2:{ left. unfold Reservations.create_reservation.
      destruct (decide (rs_room_number reservation = "")); [done |].
      destruct (decide (rs_arrival_date reservation > rs_departure_date reservation));
        [done |].
      destruct (decide (rs_arrival_date reservation ≤ today)); [done |].
      run. by rewrite Hroom. }
  rewrite (create_reservation_admissible db [] today reservation room)
    by (unfold admissible; split_and!; [done | lia | lia | done]).
  cbn [Reservations.check_overlapping_check_in
       Reservations.check_overlapping_reservations Reservations.spec_crud].
  destruct (first (Reservations.conflicting "checked-in" _ _ _) _) eqn:Hc;
    [by left |].
  destruct (first (Reservations.conflicting "reserved" _ _ _) _) eqn:Ho;
    [by left |].
  destruct (decide (Room.status room = "maintenance")); [by left |].
  right. eexists. split_and!; [| | | done | done | reflexivity]; reflexivity.
Qed.

Lemma conflicting_false_no_overlap st rn a d r row :
  Reservations.conflicting st rn a d r = false →
  Reservation.room_number r = rn →
  Reservation.status r = st →
  Reservation.arrival_date row = a →
  Reservation.departure_date row = d →
  ¬ overlap r row.
Proof.
  unfold Reservations.conflicting, overlap. intros Hc Hrn Hst <- <- [H1 H2].
  rewrite !bool_decide_eq_true_2 in Hc by done. cbn in Hc.
  apply andb_false_iff in Hc as [Hc%Z.leb_gt|Hc%Z.leb_gt]; lia.
Qed.

Lemma step_preserves db o :
  non_overlapping db → available_rooms_free db →
  non_overlapping (step db o) ∧ available_rooms_free (step db o).
Proof.
  intros Hno Hfree. destruct o as [today reservation|check_in_request current_user];
    cbn [step].
  - destruct (create_reservation_run db today reservation)
      as [->|(row & Hrn & Ha & Hd & Hc & Ho & ->)]; [done |].
    rewrite <- Hrn. apply store_stay_preserves; [done | | done | done].
    intros r Hin Hroom [Hst|Hst].
    + eapply conflicting_false_no_overlap;
        [by apply (first_None _ _ Ho r) | congruence | done | done | done].
    + eapply conflicting_false_no_overlap;
        [by apply (first_None _ _ Hc r) | congruence | done | done | done].
  - rewrite check_in_guest_run.
    destruct (rooms db !! ci_room_number check_in_request) as [room|] eqn:Hroom;
      [| done].
    destruct (decide (Room.status room ≠ "available")) as [|Hav]; [done |].
    apply dec_stable in Hav. cbn [snd].
    match goal with
    | |- context [(_ ++ [?row])%list] =>
        apply (store_stay_preserves db row "checked-in")
    end; [done | | done | done].
    cbn. intros r Hin Hrn Hact _. apply (Hfree r room); [done | | done | done].
    by rewrite Hrn.
Qed.

(** C1 as stated fails on [check_in_guest], which looks at the room's status
    and never at the dates.  After a check-in, a later reservation and the
    check-out of room 101 the stays do not overlap and the room is
    "available"; a check-in for dates inside the reservation is then accepted
    and the two active stays overlap. *)
Lemma check_in_accepts_overlapping_dates :
  non_overlapping
    (hotel "available" [stay 1 "101" "alice" 1 5 "checked-out";
                        stay 2 "101" "bob" 10 20 "reserved"])
  ∧ handle (Main.check_in_guest (check_in "101" "carol" 12 15) admin)
      (hotel "available" [stay 1 "101" "alice" 1 5 "checked-out";
                          stay 2 "101" "bob" 10 20 "reserved"]) []
    = (Return ([Txt "Guest "; Str "carol";
                Txt " successfully checked into room "; Str "101"],
               stay 3 "101" "carol" 12 15 "checked-in"),
       hotel "checked-in" [stay 1 "101" "alice" 1 5 "checked-out";
                           stay 2 "101" "bob" 10 20 "reserved";
                           stay 3 "101" "carol" 12 15 "checked-in"])
  ∧ ¬ non_overlapping
        (step (hotel "available" [stay 1 "101" "alice" 1 5 "checked-out";
                                  stay 2 "101" "bob" 10 20 "reserved"])
           (CheckIn (check_in "101" "carol" 12 15) admin)).
Proof.
  split_and!.
  - intros i j r1 r2 Hij H1 H2 _ A1 A2.
    destruct i as [|[|i]], j as [|[|j]]; cbn in H1, H2; try done;
      repeat match goal with E : Some _ = Some _ |- _ => injection E as <- end;
      first [ destruct A1 as [A1|A1]; discriminate A1
            | destruct A2 as [A2|A2]; discriminate A2 ].
  - vm_compute. reflexivity.
  - intros Hno.
    apply (Hno 1%nat 2%nat (stay 2 "101" "bob" 10 20 "reserved")
             (stay 3 "101" "carol" 12 15 "checked-in")).
    + lia.
    + reflexivity.
    + vm_compute. reflexivity.
    + reflexivity.
    + by left.
    + by right.
    + split; cbn; lia.
Qed.

(** The state of the counterexample is one the handlers reach from an empty
    hotel: check-in, reservation of later dates, check-out. *)
Lemma available_room_with_active_stay_reachable :
  snd (handle (Main.check_out_guest "101" admin)
         (snd (handle (Reservations.create_reservation
                         (H := Reservations.spec_crud) 0
                         (reserve "101" "bob" 10 20))
                 (snd (handle (Main.check_in_guest
                                 (check_in "101" "alice" 1 5) admin)
                         (hotel "available" []) [])) [])) [])
  = hotel "available" [stay 1 "101" "alice" 1 5 "checked-out";
                       stay 2 "101" "bob" 10 20 "reserved"].
Proof. vm_compute. reflexivity. Qed.

(** C1, amended. In runs of CreateReservation and CheckIn where no commit
    fails, the active stays of a room never overlap as long as the rooms
    whose status is "available" have no active stay: from a store with both
    properties every such run ends in a store with both.  CreateReservation
    refuses a request that meets an active stay; CheckIn relies on the status
    of the room alone. *)
Theorem stays_never_overlap db ops :
  non_overlapping db → available_rooms_free db →
  non_overlapping (run_ops db ops) ∧ available_rooms_free (run_ops db ops).
Proof.
  revert db. induction ops as [|o ops IH]; intros db Hno Hfree; [done |].
  cbn. destruct (step_preserves db o Hno Hfree) as [Hno' Hfree'].
  by apply IH.
Qed.

Lemma stays_never_overlap_witness :
  non_overlapping
    (run_ops (hotel "available" [])
       [CheckIn (check_in "101" "alice" 1 5) admin;
        CreateReservation 0 (reserve "101" "bob" 10 20);
        CreateReservation 0 (reserve "101" "carol" 20 22);
        CheckIn (check_in "101" "dave" 12 15) admin])
  ∧ available_rooms_free
      (run_ops (hotel "available" [])
         [CheckIn (check_in "101" "alice" 1 5) admin;
          CreateReservation 0 (reserve "101" "bob" 10 20);
          CreateReservation 0 (reserve "101" "carol" 20 22);
          CheckIn (check_in "101" "dave" 12 15) admin]).
Proof.
  apply (stays_never_overlap (hotel "available" [])).
  - intros i j r1 r2 _ H1. simpl in H1. discriminate.
  - intros r room Hin. simpl in Hin. inversion Hin.
Defined.

Example stays_never_overlap_run :
  run_ops (hotel "available" [])
    [CheckIn (check_in "101" "alice" 1 5) admin;
     CreateReservation 0 (reserve "101" "bob" 10 20);
     CreateReservation 0 (reserve "101" "carol" 20 22);
     CheckIn (check_in "101" "dave" 12 15) admin]
  = hotel "reserved" [stay 1 "101" "alice" 1 5 "checked-in";
                      stay 2 "101" "bob" 10 20 "reserved"].
Proof. vm_compute. reflexivity. Qed.

(** ** Doubles *)






(** ** Recording a payment (app/payments/router.py) *)

Section RecordPayment.
Context `{Payments.crud.t}.




End RecordPayment.








(** Scenario 1 of the spec: three nights at 100, a payment of 300. *)
Example payment_in_full :
  handle (Payments.create_payment (H := Payments.spec_crud) noon 7 (pay 300) alice)
    (ledger []) []
  = (Return ([Txt "Payment processed successfully."],
             paid_row 1 300 0 "payment completed"),
     set_bookings (alter (Booking.with_payment_status "payment completed") 7)
       (ledger [paid_row 1 300 0 "payment completed"])).
Proof. vm_compute. reflexivity. Qed.

(** Scenario 2 of the spec: a payment of 200 leaves a balance of 100. *)
Example payment_in_part :
  handle (Payments.create_payment (H := Payments.spec_crud) noon 7 (pay 200) alice)
    (ledger []) []
  = (Return ([Txt "Payment processed successfully."],
             paid_row 1 200 100 "payment incomplete"),
     set_bookings (alter (Booking.with_payment_status "payment incomplete") 7)
       (ledger [paid_row 1 200 100 "payment incomplete"])).
Proof. vm_compute. reflexivity. Qed.

(** ** Voiding a payment *)

Lemma void_payment_run db payment_id current_user :
  role current_user = "admin" →
  handle (Payments.void_payment (H := Payments.spec_crud) payment_id current_user)
    db []
  = match first (fun p => bool_decide (Payment.id p = payment_id)) (payments db) with
    | None =>
        (Raise (HTTPException 404
           [Txt "Payment with ID "; Int payment_id; Txt " not found."]), db)
    | Some payment =>
        (Return ([Txt "Payment with ID "; Int payment_id;
                  Txt " has been marked as void successfully."],
                 (Payment.id payment, "voided")),
         set_payments (fmap (void_row (Payment.id payment))) db)
    end.
Proof.
  intros Hrole. unfold Payments.void_payment.
  destruct (decide (role current_user ≠ "admin")); [done |].
  run. cbn [Payments.crud.get_payment_by_id Payments.spec_crud].
  destruct (first _ _); reflexivity.
Qed.

Lemma first_fmap {A} (P : A → bool) (f : A → A) (l : list A) :
  (∀ x, P (f x) = P x) → first P (f <$> l) = f <$> first P l.
Proof.
  intros HP. unfold first. induction l as [|x l IH]; [done |].
  cbn. rewrite HP. by destruct (P x).
Qed.

Lemma void_row_id i p : Payment.id (void_row i p) = Payment.id p.
Proof. unfold void_row. by destruct (decide _). Qed.

Lemma void_row_idemp i p : void_row i (void_row i p) = void_row i p.
Proof.
  unfold void_row. destruct (decide (Payment.id p = i)) as [Hi|Hi].
  - by rewrite decide_True.
  - by rewrite decide_False.
Qed.

Lemma void_row_amount_paid i p :
  Payment.amount_paid (void_row i p) = Payment.amount_paid p.
Proof. unfold void_row. by destruct (decide _). Qed.

(** C10. Voiding, as admin, a payment that has been voided succeeds again
    with the same answer and stores nothing new: the database after the
    second void is the database after the first, so every row, every amount
    paid and every total computed from the payments is the same. *)
Theorem void_payment_twice db payment_id current_user payment :
  role current_user = "admin" →
  Payments.crud.get_payment_by_id (t := Payments.spec_crud) db payment_id
  = Some payment →
  ∃ r db1,
    handle (Payments.void_payment (H := Payments.spec_crud) payment_id current_user)
      db [] = (Return r, db1)
    ∧ handle (Payments.void_payment (H := Payments.spec_crud) payment_id current_user)
        db1 [] = (Return r, db1)
    ∧ (∀ p, p ∈ payments db1 → Payment.id p = payment_id →
            Payment.status p = "voided")
    ∧ Payment.amount_paid <$> payments db1 = Payment.amount_paid <$> payments db
    ∧ ∀ booking_id,
        Payments.sum (Payments.paid <$>
           List.filter (Payments.not_voided_of booking_id)
             (payments (snd (handle (Payments.void_payment (H := Payments.spec_crud)
                                       payment_id current_user) db1 []))))
        = Payments.sum (Payments.paid <$>
            List.filter (Payments.not_voided_of booking_id) (payments db1)).
Proof.
  intros Hrole Hget. cbn in Hget.
  pose proof (first_Some _ _ _ Hget) as [_ Hid%bool_decide_eq_true].
  eexists _, _. rewrite (void_payment_run db _ _ Hrole), Hget.
  split; [reflexivity |].
  assert (Hsecond :
    handle (Payments.void_payment (H := Payments.spec_crud) payment_id current_user)
      (set_payments (fmap (void_row (Payment.id payment))) db) []
    = (Return ([Txt "Payment with ID "; Int payment_id;
                Txt " has been marked as void successfully."],
               (Payment.id payment, "voided")),
       set_payments (fmap (void_row (Payment.id payment))) db)).
  { rewrite (void_payment_run _ _ _ Hrole). cbn [payments set_payments].
    rewrite first_fmap, Hget.
    2:{ intros x. by rewrite void_row_id. }
    cbn. rewrite void_row_id. f_equal.
    unfold set_payments. cbn. f_equal.
    rewrite <- list_fmap_compose. apply list_fmap_ext.
    intros _ p _. apply void_row_idemp. }
  split; [exact Hsecond |]. split_and!.
  - cbn. intros p [q [-> Hq]]%list_elem_of_fmap Hp.
    rewrite void_row_id in Hp. unfold void_row.
    rewrite decide_True by congruence. done.
  - cbn. rewrite <- list_fmap_compose. apply list_fmap_ext.
    intros _ p _. apply void_row_amount_paid.
  - intros booking_id. by rewrite Hsecond.
Qed.

Lemma void_payment_twice_witness :
  ∃ r db1,
    handle (Payments.void_payment (H := Payments.spec_crud) 1 admin)
      (ledger [paid_row 1 200 100 "payment incomplete"]) [] = (Return r, db1)
    ∧ handle (Payments.void_payment (H := Payments.spec_crud) 1 admin)
        db1 [] = (Return r, db1)
    ∧ (∀ p, p ∈ payments db1 → Payment.id p = 1 → Payment.status p = "voided")
    ∧ Payment.amount_paid <$> payments db1
      = Payment.amount_paid <$> payments (ledger [paid_row 1 200 100 "payment incomplete"])
    ∧ ∀ booking_id,
        Payments.sum (Payments.paid <$>
           List.filter (Payments.not_voided_of booking_id)
             (payments (snd (handle (Payments.void_payment (H := Payments.spec_crud)
                                       1 admin) db1 []))))
        = Payments.sum (Payments.paid <$>
            List.filter (Payments.not_voided_of booking_id) (payments db1)).
Proof.
  apply (void_payment_twice (ledger [paid_row 1 200 100 "payment incomplete"])
           1 admin (paid_row 1 200 100 "payment incomplete")).
  - reflexivity.
  - reflexivity.
Defined.

Example void_payment_twice_run :
  handle (Payments.void_payment (H := Payments.spec_crud) 1 admin)
    (ledger [paid_row 1 200 100 "payment incomplete"]) []
  = (Return ([Txt "Payment with ID "; Int 1;
              Txt " has been marked as void successfully."], (1, "voided")),
     ledger [paid_row 1 200 100 "voided"])
  ∧ handle (Payments.void_payment (H := Payments.spec_crud) 1 admin)
      (ledger [paid_row 1 200 100 "voided"]) []
    = (Return ([Txt "Payment with ID "; Int 1;
                Txt " has been marked as void successfully."], (1, "voided")),
       ledger [paid_row 1 200 100 "voided"]).
Proof. split; vm_compute; reflexivity. Qed.

(** * Further properties of the handlers *)

(** ** Check-in and check-out (main.py) *)

Lemma next_id_fresh (ids : list Z) (i : Z) : i ∈ ids → i < next_id ids.
Proof.
  unfold next_id. induction ids as [|j ids IH]; [by intros ?%elem_of_nil |].
  intros [->|Hin]%elem_of_cons; cbn; [lia |].
  specialize (IH Hin). lia.
Qed.

Lemma check_out_guest_run db fs room_number current_user :
  handle (Main.check_out_guest room_number current_user) db fs
  = match rooms db !! room_number with
    | None => (Raise (HTTPException 404 [Txt "Room not found"]), db)
    | Some room =>
        match first (Main.is_checked_in room_number) (reservations db) with
        | None =>
            (Raise (HTTPException 400
               [Txt "Room "; Str room_number; Txt " is not currently checked-in."]),
             db)
        | Some reservation =>
            let db1 :=
              set_reservations
                (fmap (fun r => if decide (Reservation.id r = Reservation.id reservation)
                                then Reservation.with_status "checked-out" r else r))
                db in
            let db2 := set_rooms (alter (Room.with_status "available") room_number) db1 in
            match fs with
            | true :: _ => (Raise (HTTPException 500 error_occurred), db)
            | _ :: true :: _ => (Raise (HTTPException 500 error_occurred), db1)
            | _ =>
                (Return ([Txt "Guest "; Str (Reservation.guest_name reservation);
                          Txt " successfully checked out of room "; Str room_number],
                         Reservation.with_status "checked-out" reservation), db2)
            end
        end
    end.
Proof.
  unfold Main.check_out_guest. run.
  destruct (rooms db !! room_number) as [room|]; [| done].
  cbn [pending]. destruct (first _ _) as [reservation|]; [| done].
  cbn. destruct fs as [|[] [|[] fs]]; reflexivity.
Qed.

(** X2. [check_out_guest] succeeds exactly when the room exists and a stay
    of the room is checked-in; otherwise it answers 404 or 400 and stores
    nothing, whatever the store does at commits. *)
Theorem check_out_needs_checked_in_stay db room_number current_user :
  ((∃ x db', handle (Main.check_out_guest room_number current_user) db []
             = (Return x, db'))
   ↔ is_Some (rooms db !! room_number)
     ∧ ∃ r, r ∈ reservations db
            ∧ Reservation.room_number r = room_number
            ∧ Reservation.status r = "checked-in")
  ∧ (¬ (is_Some (rooms db !! room_number)
        ∧ ∃ r, r ∈ reservations db
               ∧ Reservation.room_number r = room_number
               ∧ Reservation.status r = "checked-in") →
     ∀ fs, ∃ code detail,
       handle (Main.check_out_guest room_number current_user) db fs
       = (Raise (HTTPException code detail), db) ∧ (code = 404 ∨ code = 400)).
Proof.
  assert (Hfind : ∀ r, r ∈ reservations db →
            Reservation.room_number r = room_number →
            Reservation.status r = "checked-in" →
            is_Some (first (Main.is_checked_in room_number) (reservations db))).
  { intros r Hin Hrn Hst. apply (first_is_Some _ _ r Hin).
    unfold Main.is_checked_in. by rewrite !bool_decide_eq_true_2. }
  split.
  - rewrite check_out_guest_run. split.
    + intros (x & db' & Hrun).
      destruct (rooms db !! room_number) as [room|]; [| done].
      split; [by eexists |].
      destruct (first _ _) as [r|] eqn:Hf; [| done].
      apply first_Some in Hf as [Hin Hr]. unfold Main.is_checked_in in Hr.
      apply andb_true_iff in Hr as [Hrn%bool_decide_eq_true Hst%bool_decide_eq_true].
      by exists r.
    + intros [[room ->] (r & Hin & Hrn & Hst)].
      destruct (Hfind r Hin Hrn Hst) as [r' ->]. by eexists _, _.
  - intros Hnot fs. rewrite check_out_guest_run.
    destruct (rooms db !! room_number) as [room|]; [| by eexists _, _; eauto].
    destruct (first _ _) as [r|] eqn:Hf; [| by eexists _, _; eauto].
    exfalso. apply Hnot. split; [by eexists |].
    apply first_Some in Hf as [Hin Hr]. unfold Main.is_checked_in in Hr.
    apply andb_true_iff in Hr as [Hrn%bool_decide_eq_true Hst%bool_decide_eq_true].
    by exists r.
Qed.

Lemma check_out_needs_checked_in_stay_witness :
  ∃ code detail,
    handle (Main.check_out_guest "101" admin)
      (hotel "reserved" [stay 1 "101" "bob" 10 20 "reserved"]) [false; true]
    = (Raise (HTTPException code detail),
       hotel "reserved" [stay 1 "101" "bob" 10 20 "reserved"])
    ∧ (code = 404 ∨ code = 400).
Proof.
  apply (proj2 (check_out_needs_checked_in_stay
                  (hotel "reserved" [stay 1 "101" "bob" 10 20 "reserved"])
                  "101" admin)).
  intros [_ (r & Hin & _ & Hst)].
  apply list_elem_of_singleton in Hin. subst r. simpl in Hst. discriminate.
Defined.

Lemma first_app {A} (P : A → bool) (l1 l2 : list A) :
  first P (l1 ++ l2)%list
  = match first P l1 with Some x => Some x | None => first P l2 end.
Proof.
  unfold first. induction l1 as [|x l1 IH]; [done |].
  cbn. by destruct (P x).
Qed.

(** X1. A guest checked into an available room that has no checked-in stay
    and then checked out leaves the store as it was, plus one stay with status
    "checked-out": the room is "available" again. *)
Theorem check_in_then_check_out db check_in_request current_user room :
  rooms db !! ci_room_number check_in_request = Some room →
  Room.status room = "available" →
  (∀ r, r ∈ reservations db →
        Reservation.room_number r = ci_room_number check_in_request →
        Reservation.status r ≠ "checked-in") →
  let row :=
    {| Reservation.id := next_id (Reservation.id <$> reservations db);
       Reservation.room_number := ci_room_number check_in_request;
       Reservation.guest_name := ci_guest_name check_in_request;
       Reservation.arrival_date := ci_arrival_date check_in_request;
       Reservation.departure_date := ci_departure_date check_in_request;
       Reservation.status := "checked-out" |} in
  handle (Main.check_out_guest (ci_room_number check_in_request) current_user)
    (snd (handle (Main.check_in_guest check_in_request current_user) db [])) []
  = (Return ([Txt "Guest "; Str (ci_guest_name check_in_request);
              Txt " successfully checked out of room ";
              Str (ci_room_number check_in_request)], row),
     set_reservations (fun l => (l ++ [row])%list) db).
Proof.
  intros Hroom Hav Hnone row.
  rewrite check_in_guest_run, Hroom.
  destruct (decide (Room.status room ≠ "available")); [done |].
  cbn [snd]. rewrite check_out_guest_run.
  cbn [rooms set_rooms set_reservations reservations].
  rewrite lookup_alter_eq, Hroom. cbn [fmap option_fmap option_map].
  set (new := {| Reservation.id := next_id (Reservation.id <$> reservations db);
                 Reservation.status := "checked-in" |}).
  assert (Hfirst : first (Main.is_checked_in (ci_room_number check_in_request))
                     (reservations db ++ [new])%list = Some new).
  { rewrite first_app.
    assert (first (Main.is_checked_in (ci_room_number check_in_request))
              (reservations db) = None) as ->.
    { destruct (first _ _) as [r|] eqn:Hf; [| done].
      apply first_Some in Hf as [Hin Hr]. unfold Main.is_checked_in in Hr.
      apply andb_true_iff in Hr as [Hrn%bool_decide_eq_true Hst%bool_decide_eq_true].
      by destruct (Hnone r Hin Hrn). }
    cbn. unfold Main.is_checked_in. cbn. by rewrite !bool_decide_eq_true_2. }
  rewrite Hfirst. cbn. f_equal. unfold set_rooms, set_reservations. cbn. f_equal.
  - apply map_eq. intros k. destruct (decide (k = ci_room_number check_in_request))
      as [->|Hk].
    + rewrite !lookup_alter_eq, Hroom. cbn. f_equal.
      destruct room. cbn in *. by subst.
    + by rewrite !lookup_alter_ne.
  - rewrite fmap_app. cbn. rewrite decide_True by done. f_equal.
    rewrite <- (list_fmap_id (reservations db)) at 2. apply list_fmap_ext.
    intros i r Hr. rewrite decide_False; [done |].
    assert (Reservation.id r < next_id (Reservation.id <$> reservations db)); [| lia].
    apply next_id_fresh, list_elem_of_fmap. exists r. split; [done |].
    by eapply list_elem_of_lookup_2.
Qed.

Lemma check_in_then_check_out_witness :
  handle (Main.check_out_guest "103" admin)
    (snd (handle (Main.check_in_guest (check_in "103" "alice" 1 5) admin)
            {| rooms := {[ "103" := single "available" ]};
               reservations := [stay 4 "103" "bob" 10 12 "reserved"];
               bookings := ∅; payments := [] |} [])) []
  = (Return ([Txt "Guest "; Str "alice";
              Txt " successfully checked out of room "; Str "103"],
             stay 5 "103" "alice" 1 5 "checked-out"),
     {| rooms := {[ "103" := single "available" ]};
        reservations := [stay 4 "103" "bob" 10 12 "reserved";
                         stay 5 "103" "alice" 1 5 "checked-out"];
        bookings := ∅; payments := [] |}).
Proof.
  assert (Hnone : ∀ r, r ∈ [stay 4 "103" "bob" 10 12 "reserved"] →
            Reservation.room_number r = "103" →
            Reservation.status r ≠ "checked-in").
  { intros r Hin _. apply list_elem_of_singleton in Hin. subst r. simpl. discriminate. }
  exact (check_in_then_check_out
           {| rooms := {[ "103" := single "available" ]};
              reservations := [stay 4 "103" "bob" 10 12 "reserved"];
              bookings := ∅; payments := [] |}
           (check_in "103" "alice" 1 5) admin (single "available")
           eq_refl eq_refl Hnone).
Defined.

(** ** Reservations in main.py *)

Lemma main_create_reservation_run db fs reservation :
  handle (Main.create_reservation reservation) db fs
  = if decide (rs_room_number reservation = "" ∨ rs_guest_name reservation = "")
    then (Raise (HTTPException 400
            [Txt "Room number and guest name are required."]), db)
    else
      match rooms db !! rs_room_number reservation with
      | None => (Raise (HTTPException 404 [Txt "Room not found"]), db)
      | Some room =>
          if decide (Room.status room ≠ "available")
          then (Raise (HTTPException 400
                  [Txt "Room "; Str (rs_room_number reservation);
                   Txt " is not available for reservation."]), db)
          else
            match first (Main.overlaps_request reservation) (reservations db) with
            | Some _ =>
                (Raise (HTTPException 400
                   [Txt "A reservation already exists for this room during the specified period."]),
                 db)
            | None =>
                let row :=
                  {| Reservation.id := next_id (Reservation.id <$> reservations db);
                     Reservation.room_number := rs_room_number reservation;
                     Reservation.guest_name := rs_guest_name reservation;
                     Reservation.arrival_date := rs_arrival_date reservation;
                     Reservation.departure_date := rs_departure_date reservation;
                     Reservation.status := "reserved" |} in
                let db1 := set_reservations (fun l => (l ++ [row])%list) db in
                let db2 :=
                  set_rooms (alter (Room.with_status "reserved")
                               (rs_room_number reservation)) db1 in
                match fs with
                | true :: _ => (Raise (HTTPException 500 error_occurred), db)
                | _ :: true :: _ => (Raise (HTTPException 500 error_occurred), db1)
                | _ =>
                    (Return ([Txt "Reservation created successfully"],
                             Reservation.id row), db2)
                end
            end
      end.
Proof.
  unfold Main.create_reservation.
  destruct (decide (_ ∨ _)); [done |].
  run. destruct (rooms db !! rs_room_number reservation) as [room|]; [| done].
  destruct (decide (Room.status room ≠ "available")); [done |].
  cbn [pending]. destruct (first _ _); [done |].
  cbn. destruct fs as [|[] [|[] fs]]; reflexivity.
Qed.

(** X3. [create_reservation] of main.py accepts a request exactly when room
    number and guest name are not empty, the room exists with status
    "available", and no stored reservation row of the room, whatever its
    status, meets the requested dates (bounds included).  The dates themselves
    are not validated.  An accepted reservation is stored as "reserved" and
    the room is marked "reserved". *)
Theorem main_create_reservation_accepts_iff db reservation :
  (∃ x db', handle (Main.create_reservation reservation) db [] = (Return x, db'))
  ↔ rs_room_number reservation ≠ ""
    ∧ rs_guest_name reservation ≠ ""
    ∧ (∃ room, rooms db !! rs_room_number reservation = Some room
               ∧ Room.status room = "available")
    ∧ (∀ r, r ∈ reservations db →
            Reservation.room_number r = rs_room_number reservation →
            ¬ (Reservation.arrival_date r ≤ rs_departure_date reservation
               ∧ rs_arrival_date reservation ≤ Reservation.departure_date r)).
Proof.
  rewrite main_create_reservation_run. split.
  - intros (x & db' & Hrun).
    destruct (decide (_ ∨ _)) as [|Hnames]; [done |].
    destruct (rooms db !! rs_room_number reservation) as [room|]; [| done].
    destruct (decide (Room.status room ≠ "available")) as [|Hav]; [done |].
    destruct (first _ _) eqn:Hf; [done |].
    split_and!; [tauto | tauto | exists room; split; [done | by apply dec_stable] |].
    intros r Hin Hrn Hov.
    pose proof (first_None _ _ Hf r Hin) as Hr.
    assert (Main.overlaps_request reservation r = true); [| congruence].
    by apply overlaps_request_spec.
  - intros (Hrn & Hgn & (room & -> & Hav) & Hfree).
    destruct (decide (_ ∨ _)) as [[?|?]|_]; [done | done |].
    destruct (decide (Room.status room ≠ "available")); [done |].
    destruct (first _ _) as [r|] eqn:Hf; [| by eexists _, _].
    apply first_Some in Hf as [Hin (Hr & Ha & Hd)%overlaps_request_spec].
    by destruct (Hfree r Hin Hr).
Qed.

(** X4. A room whose status is not "available" takes no new stay through
    main.py: both [create_reservation] and [check_in_guest] answer 400 and
    store nothing; and that is the state either of them leaves the room in
    when it succeeds. *)
Theorem main_one_stay_per_room db room_number room :
  rooms db !! room_number = Some room →
  (Room.status room ≠ "available" →
   ∀ fs reservation check_in_request current_user,
     rs_room_number reservation = room_number →
     rs_guest_name reservation ≠ "" →
     room_number ≠ "" →
     ci_room_number check_in_request = room_number →
     handle (Main.create_reservation reservation) db fs
     = (Raise (HTTPException 400
          [Txt "Room "; Str room_number;
           Txt " is not available for reservation."]), db)
     ∧ handle (Main.check_in_guest check_in_request current_user) db fs
       = (Raise (HTTPException 400 [Txt "Room is not available for check-in"]), db))
  ∧ (∀ reservation x db',
       rs_room_number reservation = room_number →
       handle (Main.create_reservation reservation) db [] = (Return x, db') →
       Room.status <$> rooms db' !! room_number = Some "reserved")
  ∧ (∀ check_in_request current_user x db',
       ci_room_number check_in_request = room_number →
       handle (Main.check_in_guest check_in_request current_user) db [] = (Return x, db') →
       Room.status <$> rooms db' !! room_number = Some "checked-in").
Proof.
  intros Hroom. split_and!.
  - intros Hst fs reservation check_in_request current_user Hrs Hgn Hrn Hci. split.
    + rewrite main_create_reservation_run, Hrs, Hroom.
      destruct (decide (_ ∨ _)) as [[?|?]|_]; [done | done |].
      by destruct (decide (Room.status room ≠ "available")).
    + unfold Main.check_in_guest. run. rewrite Hci, Hroom.
      by destruct (decide (Room.status room ≠ "available")).
  - intros reservation x db' Hrs. rewrite main_create_reservation_run, Hrs, Hroom.
    destruct (decide (_ ∨ _)); [done |].
    destruct (decide (Room.status room ≠ "available")); [done |].
    destruct (first _ _); [done |]. cbn. intros [= _ <-]. cbn.
    by rewrite lookup_alter_eq, Hroom.
  - intros check_in_request current_user x db' Hci.
    rewrite check_in_guest_run, Hci, Hroom.
    destruct (decide (Room.status room ≠ "available")); [done |].
    cbn. intros [= _ <-]. cbn. by rewrite lookup_alter_eq, Hroom.
Qed.

Lemma main_one_stay_per_room_witness :
  handle (Main.create_reservation (reserve "101" "carol" 30 32))
    (hotel "checked-in" [stay 1 "101" "alice" 1 5 "checked-in"]) []
  = (Raise (HTTPException 400
       [Txt "Room "; Str "101"; Txt " is not available for reservation."]),
     hotel "checked-in" [stay 1 "101" "alice" 1 5 "checked-in"])
  ∧ handle (Main.check_in_guest (check_in "101" "carol" 30 32) admin)
      (hotel "checked-in" [stay 1 "101" "alice" 1 5 "checked-in"]) []
    = (Raise (HTTPException 400 [Txt "Room is not available for check-in"]),
       hotel "checked-in" [stay 1 "101" "alice" 1 5 "checked-in"]).
Proof.
  apply (proj1 (main_one_stay_per_room
                  (hotel "checked-in" [stay 1 "101" "alice" 1 5 "checked-in"])
                  "101" (single "checked-in") eq_refl)).
  - simpl. discriminate.
  - reflexivity.
  - simpl. discriminate.
  - discriminate.
  - reflexivity.
Defined.

(** ** Deleting a reservation (app/reservations/router.py) *)

Lemma length_filter_zero {A} (P : A → Prop) `{∀ x, Decision (P x)} (l : list A) :
  Z.of_nat (length (filter P l)) = 0 ↔ ∀ x, x ∈ l → ¬ P x.
Proof.
  split.
  - intros Hlen x Hin HP.
    assert (Hx : x ∈ filter P l) by by apply list_elem_of_filter.
    destruct (filter P l); [by apply elem_of_nil in Hx | cbn in Hlen; lia].
  - intros Hall. destruct (filter P l) as [|x l'] eqn:Hf; [done |].
    assert (Hx : x ∈ filter P l) by (rewrite Hf; apply list_elem_of_here).
    apply list_elem_of_filter in Hx as [HP Hin]. by destruct (Hall x Hin).
Qed.

(** X6. When the reservation exists and the caller is admin or the guest
    named in it, [delete_reservation] removes it and then counts the
    reservation rows left for the room: with none left the room is set
    "available" and reported so; with some left the room's status is not
    touched and the answer reports "reserved" whatever that status is. *)
Theorem delete_reservation_permitted db room_number guest_name current_user r :
  first (Reservations.of_room_and_guest room_number guest_name) (reservations db)
  = Some r →
  role current_user = "admin" ∨ username current_user = guest_name →
  ∃ room_status db',
    handle (Reservations.delete_reservation room_number guest_name current_user) db []
    = (Return ([Txt "Reservation for room "; Str room_number; Txt " and guest ";
                Str guest_name; Txt " successfully deleted."], room_status), db')
    ∧ reservations db' = filter (fun q => Reservation.id q ≠ Reservation.id r)
                           (reservations db)
    ∧ (r ∉ reservations db')
    ∧ bookings db' = bookings db ∧ payments db' = payments db
    ∧ ((∀ q, q ∈ reservations db' → Reservation.room_number q ≠ room_number) →
       room_status = "available"
       ∧ rooms db' = alter (Room.with_status "available") room_number (rooms db))
    ∧ ((∃ q, q ∈ reservations db' ∧ Reservation.room_number q = room_number) →
       room_status = "reserved" ∧ rooms db' = rooms db).
Proof.
  intros Hfind Hperm.
  pose proof (first_Some _ _ _ Hfind) as [_ Hr].
  unfold Reservations.of_room_and_guest in Hr.
  apply andb_true_iff in Hr as [_ Hg%bool_decide_eq_true].
  unfold Reservations.delete_reservation. run. rewrite Hfind.
  destruct (decide (_ ∧ _)) as [[Hrole Huser]|_].
  { exfalso. destruct Hperm; congruence. }
  cbn [pending committed faults tail reservations set_reservations].
  set (rest := filter (fun q => Reservation.id q ≠ Reservation.id r) (reservations db)).
  pose proof (length_filter_zero
                (fun q => Reservation.room_number q = room_number) rest) as Hzero.
  assert (Hgone : r ∉ rest).
  { intros [Hne _]%list_elem_of_filter. done. }
  destruct (decide (Z.of_nat (length (filter _ rest)) = 0)) as [Hz|Hnz].
  - cbv beta. cbn [pending rooms set_reservations].
    destruct (rooms db !! room_number) as [room|] eqn:Hroom.
    + eexists _, _. split; [reflexivity |]. cbn.
      split_and!; [done | done | done | done | done |].
      intros (q & Hq & Hrn). by destruct (proj1 Hzero Hz q Hq).
    + eexists _, _. split; [reflexivity |]. cbn.
      split_and!; [done | done | done | done | |].
      * intros _. split; [done |]. apply map_eq. intros k.
        destruct (decide (k = room_number)) as [->|Hk].
        -- by rewrite lookup_alter_eq, Hroom.
        -- by rewrite lookup_alter_ne.
      * intros (q & Hq & Hrn). by destruct (proj1 Hzero Hz q Hq).
  - eexists _, _. split; [reflexivity |]. cbn.
    split_and!; [done | done | done | done | | done].
    intros Hall. destruct Hnz. apply Hzero. intros q Hq. by apply Hall.
Qed.

Lemma delete_reservation_permitted_witness :
  ∃ room_status db',
    handle (Reservations.delete_reservation "101" "alice" alice)
      (hotel "checked-in" [stay 1 "101" "alice" 8 12 "reserved";
                           stay 2 "101" "bob" 1 5 "checked-in"]) []
    = (Return ([Txt "Reservation for room "; Str "101"; Txt " and guest ";
                Str "alice"; Txt " successfully deleted."], room_status), db')
    ∧ reservations db'
      = filter (fun q => Reservation.id q ≠ 1)
          [stay 1 "101" "alice" 8 12 "reserved"; stay 2 "101" "bob" 1 5 "checked-in"]
    ∧ (stay 1 "101" "alice" 8 12 "reserved" ∉ reservations db')
    ∧ bookings db' = ∅ ∧ payments db' = []
    ∧ ((∀ q, q ∈ reservations db' → Reservation.room_number q ≠ "101") →
       room_status = "available"
       ∧ rooms db' = alter (Room.with_status "available") "101"
                       {[ "101" := single "checked-in" ]})
    ∧ ((∃ q, q ∈ reservations db' ∧ Reservation.room_number q = "101") →
       room_status = "reserved" ∧ rooms db' = {[ "101" := single "checked-in" ]}).
Proof.
  apply (delete_reservation_permitted
           (hotel "checked-in" [stay 1 "101" "alice" 8 12 "reserved";
                                stay 2 "101" "bob" 1 5 "checked-in"])
           "101" "alice" alice (stay 1 "101" "alice" 8 12 "reserved")).
  - reflexivity.
  - right. reflexivity.
Defined.

(** ** Payments: what is refused, what is kept *)

Section PaymentChecks.
Context `{Payments.crud.t}.

(** X8. A payment whose date carries no timezone or lies after the current
    instant, or whose booking does not exist, or whose booking has no room or
    is neither checked-in nor reserved, is refused with 400 or 404 before
    anything is written, whatever the crud functions do. *)
Theorem payment_refused_before_write db fs now booking_id payment_request current_user :
  tzinfo (PaymentCreateSchema.payment_date payment_request) = None
  ∨ instant (PaymentCreateSchema.payment_date payment_request) > instant now
  ∨ bookings db !! booking_id = None
  ∨ (∃ booking_record,
       bookings db !! booking_id = Some booking_record
       ∧ (Payments.crud.get_room_by_number db (Booking.room_number booking_record) = None
          ∨ (Booking.status booking_record ≠ "checked-in"
             ∧ Booking.status booking_record ≠ "reserved"))) →
  ∃ code detail,
    handle (Payments.create_payment now booking_id payment_request current_user) db fs
    = (Raise (HTTPException code detail), db)
    ∧ (code = 400 ∨ code = 404).
Proof.
  intros Hbad. unfold Payments.create_payment.
  destruct (tzinfo _) as [tz|]; [| by eexists _, _; eauto].
  destruct (decide (_ > _)) as [|Hnow]; [by eexists _, _; eauto |].
  run. destruct (bookings db !! booking_id) as [booking_record|];
    [| by eexists _, _; eauto].
  cbn [pending].
  destruct (Payments.crud.get_room_by_number db _) as [room|] eqn:Hroom;
    [| by eexists _, _; eauto].
  destruct (decide (Booking.status booking_record ∉ _)) as [|Hst];
    [by eexists _, _; eauto |].
  exfalso. destruct Hbad as [?|[?|[?|(b & [= <-] & [Hr|[H1 H2]])]]];
    [done | done | done | congruence |].
  apply Hst. intros [?|[?|?%elem_of_nil]%elem_of_cons]%elem_of_cons; done.
Qed.

Lemma void_payment_any_crud db fs payment_id current_user :
  handle (Payments.void_payment payment_id current_user) db fs
  = if decide (role current_user ≠ "admin")
    then (Raise (HTTPException 403 [Txt "Insufficient permissions"]), db)
    else
      match Payments.crud.get_payment_by_id db payment_id with
      | None =>
          (Raise (HTTPException 404
             [Txt "Payment with ID "; Int payment_id; Txt " not found."]), db)
      | Some payment =>
          match fs with
          | true :: _ =>
              (Raise (HTTPException 500
                 [Txt "An error occurred while marking the payment as void."]), db)
          | _ =>
              (Return ([Txt "Payment with ID "; Int payment_id;
                        Txt " has been marked as void successfully."],
                       (Payment.id payment, "voided")),
               set_payments (fmap (void_row (Payment.id payment))) db)
          end
      end.
Proof.
  unfold Payments.void_payment.
  destruct (decide (role current_user ≠ "admin")); [done |].
  run. destruct (Payments.crud.get_payment_by_id db payment_id); [| done].
  cbn. destruct fs as [|[] fs]; reflexivity.
Qed.

(** X9. [void_payment] never writes anything but the status of payment
    rows: rooms, reservations and bookings (so the payment status kept on the
    booking) are left as they were, and every payment row keeps its id,
    booking, amounts, method, date and balance.  A caller who is not admin is
    answered 403 and nothing changes at all. *)
Theorem void_payment_only_sets_status db fs payment_id current_user :
  (let db' := snd (handle (Payments.void_payment payment_id current_user) db fs) in
   rooms db' = rooms db
   ∧ reservations db' = reservations db
   ∧ bookings db' = bookings db
   ∧ Payment.with_status "" <$> payments db' = Payment.with_status "" <$> payments db)
  ∧ (role current_user ≠ "admin" →
     handle (Payments.void_payment payment_id current_user) db fs
     = (Raise (HTTPException 403 [Txt "Insufficient permissions"]), db)).
Proof.
  rewrite void_payment_any_crud. split.
  - destruct (decide (role current_user ≠ "admin")); [done |].
    destruct (Payments.crud.get_payment_by_id db payment_id) as [payment|]; [| done].
    destruct fs as [|[] fs]; cbn; split_and!; try done.
    + rewrite <- list_fmap_compose. apply list_fmap_ext.
      intros _ p _. cbn. unfold void_row. by destruct (decide _).
    + rewrite <- list_fmap_compose. apply list_fmap_ext.
      intros _ p _. cbn. unfold void_row. by destruct (decide _).
  - intros Hrole. by destruct (decide (role current_user ≠ "admin")).
Qed.

End PaymentChecks.

Lemma payment_refused_before_write_witness :
  ∃ code detail,
    handle (Payments.create_payment (H := Payments.spec_crud) noon 8 (pay 10) alice)
      (ledger []) [true]
    = (Raise (HTTPException code detail), ledger [])
    ∧ (code = 400 ∨ code = 404).
Proof.
  apply (payment_refused_before_write (H := Payments.spec_crud)
           (ledger []) [true] noon 8 (pay 10) alice).
  right. right. left. reflexivity.
Defined.

Lemma void_payment_only_sets_status_witness :
  handle (Payments.void_payment (H := Payments.spec_crud) 1 alice)
    (ledger [paid_row 1 300 0 "payment completed"]) []
  = (Raise (HTTPException 403 [Txt "Insufficient permissions"]),
     ledger [paid_row 1 300 0 "payment completed"]).
Proof.
  apply (proj2 (void_payment_only_sets_status (H := Payments.spec_crud)
                  (ledger [paid_row 1 300 0 "payment completed"]) [] 1 alice)).
  simpl. discriminate.
Defined.

(** ** The ledger of a booking *)





(** The total the handler checks and the total of the rows it leaves differ
    in the order of the additions, and so can differ in value: on a bill of
    300 with 4.04 paid, a payment of 252.49 with a discount of 43.47 is
    checked as 300 and recorded as completing the bill, while the rows then
    add up to more than 300. *)
Example recorded_rows_add_up_to_more :
  let db := ledger [paid_row 1 4.04 295.96 "payment incomplete"] in
  ∃ new_payment db',
    handle (Payments.create_payment (H := Payments.spec_crud) noon 7
              (pay_with_discount 252.49 43.47) alice) db []
    = (Return ([Txt "Payment processed successfully."], new_payment), db')
    ∧ Payment.status new_payment = "payment completed"
    ∧ (new_total_payment db 7 (pay_with_discount 252.49 43.47) =? 300)%float = true
    ∧ exceeds
        (Payments.sum (Payments.paid <$>
           List.filter (Payments.not_voided_of 7) (payments db'))) 300.
Proof. eexists _, _. split_and!; vm_compute; reflexivity. Qed.

(** ** Group check-out (main.py) *)

Lemma check_out_each_no_booked room_numbers results s :
  no_booked (pending s) →
  MainRooms.check_out_each room_numbers results s
  = (Return (results ++ (not_checked_out (pending s) <$> room_numbers))%list, s).
Proof.
  intros Hnb. revert results.
  induction room_numbers as [|room_number room_numbers IH]; intros results.
  { cbn. by rewrite app_nil_r. }
  cbn [MainRooms.check_out_each]. run.
  assert (Hnone : first (MainRooms.is_booked room_number) (reservations (pending s))
                  = None).
  { destruct (first _ _) as [r|] eqn:Hf; [| done].
    apply first_Some in Hf as [Hin Hr]. unfold MainRooms.is_booked in Hr.
    apply andb_true_iff in Hr as [_ Hst%bool_decide_eq_true].
    by destruct (Hnb r Hin). }
  assert (Hhead : ∀ l, (not_checked_out (pending s) <$> room_number :: l)
                       = not_checked_out (pending s) room_number
                         :: (not_checked_out (pending s) <$> l)) by done.
  rewrite Hhead. unfold not_checked_out at 1.
  destruct (rooms (pending s) !! room_number) as [room|] eqn:Hroom.
  - by rewrite Hnone, IH, <- app_assoc.
  - by rewrite IH, <- app_assoc.
Qed.

(** X5. [check_out_multiple_rooms] looks for a stay with status "booked".
    On a store where no stay has that status it checks nothing out: every
    room of the request gets an "error" entry, in order, and the store is left
    as it was. *)
Theorem group_check_out_needs_booked db fs room_numbers current_user :
  no_booked db →
  handle (MainRooms.check_out_multiple_rooms room_numbers current_user) db fs
  = (Return (not_checked_out db <$> room_numbers), db).
Proof.
  intros Hnb. unfold handle, MainRooms.check_out_multiple_rooms.
  by rewrite check_out_each_no_booked.
Qed.

Lemma group_check_out_needs_booked_witness :
  handle (MainRooms.check_out_multiple_rooms ["101"; "102"] admin)
    (hotel "checked-in" [stay 1 "101" "alice" 1 5 "checked-in"]) []
  = (Return [ {| gr_room_number := "101"; gr_status := "error";
                 gr_message := [Txt "Room is not currently booked."] |};
              {| gr_room_number := "102"; gr_status := "error";
                 gr_message := [Txt "Room does not exist."] |} ],
     hotel "checked-in" [stay 1 "101" "alice" 1 5 "checked-in"]).
Proof.
  apply (group_check_out_needs_booked
           (hotel "checked-in" [stay 1 "101" "alice" 1 5 "checked-in"]) []
           ["101"; "102"] admin).
  intros r Hin. apply list_elem_of_singleton in Hin. subst r. simpl. discriminate.
Defined.

Lemma no_booked_snoc db row :
  no_booked db → Reservation.status row ≠ "booked" →
  no_booked (set_reservations (fun l => (l ++ [row])%list) db).
Proof.
  intros Hnb Hrow r [Hin|Hin%list_elem_of_singleton]%elem_of_app;
    [by apply Hnb | by subst].
Qed.

Lemma no_booked_rooms db f : no_booked db → no_booked (set_rooms f db).
Proof. done. Qed.

Lemma no_booked_checked_out db i :
  no_booked db →
  no_booked (set_reservations
               (fmap (fun r => if decide (Reservation.id r = i)
                               then Reservation.with_status "checked-out" r else r))
               db).
Proof.
  intros Hnb r (q & -> & Hq)%list_elem_of_fmap.
  destruct (decide _); [done | by apply Hnb].
Qed.

Lemma no_booked_filter db (P : Reservation.t → Prop) `{∀ r, Decision (P r)} :
  no_booked db → no_booked (set_reservations (filter P) db).
Proof. intros Hnb r [_ Hin]%list_elem_of_filter. by apply Hnb. Qed.

(** X10. No handler of main.py that writes stays ever stores the status
    "booked": a store without such a stay has none after
    [create_reservation], [check_in_guest], [check_out_guest] or
    [cancel_reservation], whichever commits fail.  So a guest checked in
    through [check_in_guest] is never checked out by
    [check_out_multiple_rooms]. *)
Theorem main_never_stores_booked db fs :
  no_booked db →
  (∀ reservation,
     no_booked (snd (handle (Main.create_reservation reservation) db fs)))
  ∧ (∀ check_in_request current_user,
       no_booked (snd (handle (Main.check_in_guest check_in_request current_user) db fs))
       ∧ ∀ fs' room_numbers,
           fst (handle (MainRooms.check_out_multiple_rooms room_numbers current_user)
                  (snd (handle (Main.check_in_guest check_in_request current_user)
                          db fs)) fs')
           = Return (not_checked_out
                       (snd (handle (Main.check_in_guest check_in_request current_user)
                               db fs)) <$> room_numbers))
  ∧ (∀ room_number current_user,
       no_booked (snd (handle (Main.check_out_guest room_number current_user) db fs)))
  ∧ (∀ room_number current_user,
       no_booked (snd (handle (Main.cancel_reservation room_number current_user) db fs))).
Proof.
  intros Hnb.
  assert (Hci : ∀ check_in_request current_user,
    no_booked (snd (handle (Main.check_in_guest check_in_request current_user) db fs))).
  { intros check_in_request current_user. unfold Main.check_in_guest. run.
    destruct (rooms db !! ci_room_number check_in_request) as [room|]; [| done].
    destruct (decide (Room.status room ≠ "available")); [done |].
    cbn. destruct fs as [|[] [|[] fs]]; cbn; try done;
      try (apply no_booked_rooms); by apply no_booked_snoc. }
  split_and!.
  - intros reservation. rewrite main_create_reservation_run.
    destruct (decide (_ ∨ _)); [done |].
    destruct (rooms db !! rs_room_number reservation) as [room|]; [| done].
    destruct (decide (Room.status room ≠ "available")); [done |].
    destruct (first _ _); [done |].
    destruct fs as [|[] [|[] fs]]; cbn; try done;
      try (apply no_booked_rooms); by apply no_booked_snoc.
  - intros check_in_request current_user. split; [apply Hci |].
    intros fs' room_numbers. by rewrite group_check_out_needs_booked.
  - intros room_number current_user. rewrite check_out_guest_run.
    destruct (rooms db !! room_number) as [room|]; [| done].
    destruct (first _ _); [| done].
    destruct fs as [|[] [|[] fs]]; cbn; try done;
      try (apply no_booked_rooms); by apply no_booked_checked_out.
  - intros room_number current_user. unfold Main.cancel_reservation.
    destruct (decide (role current_user ≠ "admin")); [done |].
    run. destruct (first _ _) as [r|]; [| done].
    cbn [pending]. destruct (rooms db !! room_number) as [room|].
    + destruct (decide (Room.status room = "reserved")).
      * cbn. destruct fs as [|[] [|[] fs]]; cbn; try done;
          try (apply (no_booked_filter _ (fun q => Reservation.id q ≠ Reservation.id r)));
          by apply no_booked_rooms.
      * cbn. destruct fs as [|[] fs]; cbn; try done;
          by apply (no_booked_filter _ (fun q => Reservation.id q ≠ Reservation.id r)).
    + cbn. destruct fs as [|[] fs]; cbn; try done;
        by apply (no_booked_filter _ (fun q => Reservation.id q ≠ Reservation.id r)).
Qed.

Lemma main_never_stores_booked_witness :
  no_booked (snd (handle (Main.check_in_guest (check_in "101" "alice" 1 5) admin)
                    (hotel "available" []) []))
  ∧ ∀ fs' room_numbers,
      fst (handle (MainRooms.check_out_multiple_rooms room_numbers admin)
             (snd (handle (Main.check_in_guest (check_in "101" "alice" 1 5) admin)
                     (hotel "available" []) [])) fs')
      = Return (not_checked_out
                  (snd (handle (Main.check_in_guest (check_in "101" "alice" 1 5) admin)
                          (hotel "available" []) [])) <$> room_numbers).
Proof.
  apply (proj1 (proj2 (main_never_stores_booked (hotel "available" []) []
                         ltac:(intros r Hin; simpl in Hin; inversion Hin)))).
Defined.

(** ** Listings of rooms (main.py) *)

Lemma elem_of_rooms_with_status db s room_number room :
  (room_number, room) ∈ List.filter (room_has_status s) (all_rooms db)
  ↔ rooms db !! room_number = Some room ∧ Room.status room = s.
Proof.
  rewrite list_elem_of_In, List.filter_In, <- list_elem_of_In.
  unfold all_rooms, room_has_status. rewrite elem_of_map_to_list.
  cbn. by rewrite bool_decide_eq_true.
Qed.

Lemma no_rooms_with_status db s :
  Z.of_nat (length (List.filter (room_has_status s) (all_rooms db))) = 0
  ↔ ∀ room_number room, rooms db !! room_number = Some room → Room.status room ≠ s.
Proof.
  split.
  - intros Hlen room_number room Hroom Hst.
    assert (Hin : (room_number, room)
                  ∈ List.filter (room_has_status s) (all_rooms db))
      by by apply elem_of_rooms_with_status.
    destruct (List.filter _ _); [by apply elem_of_nil in Hin | cbn in Hlen; lia].
  - intros Hnone. destruct (List.filter _ _) as [|[room_number room] l] eqn:Hf; [done |].
    assert (Hin : (room_number, room)
                  ∈ List.filter (room_has_status s) (all_rooms db))
      by (rewrite Hf; apply list_elem_of_here).
    apply elem_of_rooms_with_status in Hin as [Hroom Hst].
    by destruct (Hnone room_number room Hroom).
Qed.

Lemma list_available_rooms_run db fs :
  handle MainRooms.list_available_rooms db fs
  = (Return
       (if decide (Z.of_nat (length (List.filter (room_has_status "available")
                                       (all_rooms db))) = 0)
        then {| av_message := Some [Txt "We are fully booked!"];
                total_available_rooms := 0;
                available_rooms := [] |}
        else {| av_message := None;
                total_available_rooms :=
                  Z.of_nat (length (List.filter (room_has_status "available")
                                      (all_rooms db)));
                available_rooms :=
                  List.filter (room_has_status "available") (all_rooms db) |}),
     db).
Proof.
  unfold MainRooms.list_available_rooms. run. by destruct (decide _).
Qed.

(** X11. [list_available_rooms] lists exactly the rooms whose stored status
    is "available", with their number as the total, reads without writing,
    and says "We are fully booked!" exactly when no room has that status
    (also when the hotel has no room at all). *)
Theorem available_rooms_listing db fs :
  ∃ answer,
    handle MainRooms.list_available_rooms db fs = (Return answer, db)
    ∧ (∀ room_number room,
         (room_number, room) ∈ available_rooms answer
         ↔ rooms db !! room_number = Some room ∧ Room.status room = "available")
    ∧ total_available_rooms answer = Z.of_nat (length (available_rooms answer))
    ∧ (av_message answer = Some [Txt "We are fully booked!"]
       ↔ ∀ room_number room,
           rooms db !! room_number = Some room → Room.status room ≠ "available").
Proof.
  eexists. split; [apply list_available_rooms_run |].
  destruct (decide _) as [Hz|Hnz]; cbn.
  - pose proof (proj1 (no_rooms_with_status db "available") Hz) as Hnone.
    split_and!; [| done | done].
    intros room_number room. split; [by intros ?%elem_of_nil |].
    intros [Hroom Hst]. by destruct (Hnone room_number room Hroom).
  - split_and!; [apply elem_of_rooms_with_status | done |].
    split; [done |]. intros Hnone. destruct Hnz. by apply no_rooms_with_status.
Qed.

(** X12. After a successful [check_out_guest] the room is among the rooms
    [list_available_rooms] returns; after a successful [check_in_guest] it is
    not, and [list_checked_in_rooms] returns it. *)
Theorem listings_follow_check_in_and_check_out db fs :
  (∀ room_number current_user x db',
     handle (Main.check_out_guest room_number current_user) db [] = (Return x, db') →
     ∃ answer room,
       handle MainRooms.list_available_rooms db' fs = (Return answer, db')
       ∧ (room_number, room) ∈ available_rooms answer)
  ∧ (∀ check_in_request current_user x db',
       handle (Main.check_in_guest check_in_request current_user) db [] = (Return x, db') →
       (∃ answer,
          handle MainRooms.list_available_rooms db' fs = (Return answer, db')
          ∧ ∀ room, (ci_room_number check_in_request, room) ∉ available_rooms answer)
       ∧ ∃ listed total room,
           handle MainRooms.list_checked_in_rooms db' fs
           = (Return (inr (listed, total)), db')
           ∧ (ci_room_number check_in_request, room) ∈ listed).
Proof.
  split.
  - intros room_number current_user x db'. rewrite check_out_guest_run.
    destruct (rooms db !! room_number) as [room|] eqn:Hroom; [| done].
    destruct (first _ _); [| done]. cbn. intros [= _ <-].
    eexists _, (Room.with_status "available" room).
    split; [apply list_available_rooms_run |].
    match goal with
    | |- context [List.filter _ (all_rooms ?d)] =>
        assert (Hin : (room_number, Room.with_status "available" room)
                      ∈ List.filter (room_has_status "available") (all_rooms d))
    end.
    { apply elem_of_rooms_with_status. cbn. by rewrite lookup_alter_eq, Hroom. }
    destruct (decide _) as [Hz|_]; cbn; [| done].
    destruct (List.filter _ _); [by apply elem_of_nil in Hin | cbn in Hz; lia].
  - intros check_in_request current_user x db'. rewrite check_in_guest_run.
    destruct (rooms db !! ci_room_number check_in_request) as [room|] eqn:Hroom;
      [| done].
    destruct (decide (Room.status room ≠ "available")); [done |].
    cbn. intros [= _ <-]. split.
    + eexists. split; [apply list_available_rooms_run |].
      intros room'. destruct (decide _); cbn; [by intros ?%elem_of_nil |].
      intros [Hr Hst]%elem_of_rooms_with_status. cbn in Hr.
      rewrite lookup_alter_eq, Hroom in Hr. cbn in Hr.
      injection Hr as <-. cbn in Hst. discriminate.
    + unfold MainRooms.list_checked_in_rooms. run.
      match goal with
      | |- context [List.filter _ (all_rooms ?d)] =>
          assert (Hin : (ci_room_number check_in_request,
                         Room.with_status "checked-in" room)
                        ∈ List.filter (room_has_status "checked-in") (all_rooms d))
      end.
      { apply elem_of_rooms_with_status. cbn. by rewrite lookup_alter_eq, Hroom. }
      destruct (decide _) as [Hz|_].
      * destruct (List.filter _ _); [by apply elem_of_nil in Hin | cbn in Hz; lia].
      * by eexists _, _, _.
Qed.

Lemma listings_follow_check_in_and_check_out_witness :
  ∃ answer room,
    handle MainRooms.list_available_rooms
      (hotel "available" [stay 1 "101" "alice" 1 5 "checked-out"]) [true]
    = (Return answer, hotel "available" [stay 1 "101" "alice" 1 5 "checked-out"])
    ∧ ("101", room) ∈ available_rooms answer.
Proof.
  apply (proj1 (listings_follow_check_in_and_check_out
                  (hotel "checked-in" [stay 1 "101" "alice" 1 5 "checked-in"]) [true])
           "101" admin
           ([Txt "Guest "; Str "alice"; Txt " successfully checked out of room ";
             Str "101"], stay 1 "101" "alice" 1 5 "checked-out")).
  vm_compute. reflexivity.
Defined.

Lemma length_filter_disjoint (l : list (string * Room.t)) (s1 s2 s3 : string) :
  s1 ≠ s2 → s1 ≠ s3 → s2 ≠ s3 →
  (length (List.filter (room_has_status s1) l)
   + length (List.filter (room_has_status s2) l)
   + length (List.filter (room_has_status s3) l)
   ≤ length l)%nat.
Proof.
  intros H12 H13 H23. induction l as [|x l IH]; [done |].
  cbn [List.filter].
  destruct (room_has_status s1 x) eqn:E1, (room_has_status s2 x) eqn:E2,
    (room_has_status s3 x) eqn:E3; cbn [length]; try lia;
    unfold room_has_status in *;
    repeat match goal with
           | E : bool_decide _ = true |- _ => apply bool_decide_eq_true in E
           end; congruence.
Qed.

(** X13. [room_summary] reads without writing; its total is the number of
    rooms, the rooms it counts as checked-in, reserved and available never add
    up to more than the total (rooms in another status are in none of the
    three), its count of available rooms is the one [list_available_rooms]
    gives, and its message is "Fully booked!" exactly when no room is
    "available". *)
Theorem room_summary_counts db fs current_user :
  ∃ summary,
    handle (MainRooms.room_summary current_user) db fs = (Return summary, db)
    ∧ total_rooms summary = Z.of_nat (size (rooms db))
    ∧ rooms_checked_in summary + rooms_reserved summary + rooms_available summary
      ≤ total_rooms summary
    ∧ (∀ answer db', handle MainRooms.list_available_rooms db fs = (Return answer, db') →
                     total_available_rooms answer = rooms_available summary)
    ∧ (summary_message summary = [Txt "Fully booked!"]
       ↔ ∀ room_number room,
           rooms db !! room_number = Some room → Room.status room ≠ "available").
Proof.
  eexists. split; [unfold MainRooms.room_summary; run; reflexivity |]. cbn.
  split_and!.
  - unfold all_rooms. by rewrite length_map_to_list.
  - pose proof (length_filter_disjoint (all_rooms db)
                  "checked-in" "reserved" "available"
                  ltac:(done) ltac:(done) ltac:(done)) as Hle. lia.
  - intros answer db'. rewrite list_available_rooms_run. intros [= <- _].
    by destruct (decide _).
  - rewrite <- no_rooms_with_status. by destruct (decide _).
Qed.

(** ** The list of reserved rooms (main.py) *)

Lemma elem_of_reserved_join db entry :
  entry ∈ MainRooms.reserved_join db
  ↔ ∃ room r,
      rooms db !! Reservation.room_number r = Some room
      ∧ Room.status room = "reserved"
      ∧ r ∈ reservations db
      ∧ entry = {| rr_room_number := Reservation.room_number r;
                   rr_room_type := Room.room_type room;
                   rr_guest_name := Reservation.guest_name r;
                   rr_arrival_date := Reservation.arrival_date r;
                   rr_departure_date := Reservation.departure_date r |}.
Proof.
  unfold MainRooms.reserved_join. rewrite list_elem_of_bind. split.
  - intros ([room_number room] & Hr & Hroom%elem_of_rooms_with_status).
    apply list_elem_of_bind in Hr as (r & He & Hr).
    apply list_elem_of_singleton in He.
    apply list_elem_of_In, List.filter_In in Hr as [Hr%list_elem_of_In Hrn].
    apply bool_decide_eq_true in Hrn. cbn in Hrn, He. subst room_number.
    exists room, r. by destruct Hroom.
  - intros (room & r & Hroom & Hst & Hin & ->).
    exists (Reservation.room_number r, room). split.
    + apply list_elem_of_bind. exists r. split; [apply list_elem_of_here |].
      apply list_elem_of_In, List.filter_In. split; [by apply list_elem_of_In |].
      by apply bool_decide_eq_true.
    + by apply elem_of_rooms_with_status.
Qed.

(** X14. [list_reserved_rooms] returns one entry for every reservation row,
    of any status, whose room has the stored status "reserved", and nothing
    else; its total is the number of those entries, so a room with two rows
    counts twice.  A reservation just accepted by [create_reservation] of
    main.py is among them. *)
Theorem reserved_rooms_listing db fs :
  (∃ total listed,
     handle MainRooms.list_reserved_rooms db fs = (Return (total, listed), db)
     ∧ total = Z.of_nat (length listed)
     ∧ ∀ entry,
         entry ∈ listed
         ↔ ∃ room r,
             rooms db !! Reservation.room_number r = Some room
             ∧ Room.status room = "reserved"
             ∧ r ∈ reservations db
             ∧ entry = {| rr_room_number := Reservation.room_number r;
                          rr_room_type := Room.room_type room;
                          rr_guest_name := Reservation.guest_name r;
                          rr_arrival_date := Reservation.arrival_date r;
                          rr_departure_date := Reservation.departure_date r |})
  ∧ (∀ reservation x db' room,
       handle (Main.create_reservation reservation) db [] = (Return x, db') →
       rooms db !! rs_room_number reservation = Some room →
       ∃ total listed,
         handle MainRooms.list_reserved_rooms db' fs = (Return (total, listed), db')
         ∧ {| rr_room_number := rs_room_number reservation;
              rr_room_type := Room.room_type room;
              rr_guest_name := rs_guest_name reservation;
              rr_arrival_date := rs_arrival_date reservation;
              rr_departure_date := rs_departure_date reservation |} ∈ listed).
Proof.
  split.
  - eexists _, _. split; [reflexivity |]. split; [done |].
    apply elem_of_reserved_join.
  - intros reservation x db' room. rewrite main_create_reservation_run.
    destruct (decide (_ ∨ _)); [done |].
    destruct (rooms db !! rs_room_number reservation) as [room0|] eqn:Hroom; [| done].
    destruct (decide (Room.status room0 ≠ "available")); [done |].
    destruct (first _ _); [done |]. cbn. intros [= _ <-] [= ->].
    eexists _, _. split; [reflexivity |].
    apply elem_of_reserved_join.
    exists (Room.with_status "reserved" room),
      (stay (next_id (Reservation.id <$> reservations db))
         (rs_room_number reservation) (rs_guest_name reservation)
         (rs_arrival_date reservation) (rs_departure_date reservation) "reserved").
    split_and!.
    + cbn. by rewrite lookup_alter_eq, Hroom.
    + done.
    + cbn. apply elem_of_app. right. apply list_elem_of_here.
    + done.
Qed.

Lemma reserved_rooms_listing_witness :
  ∃ total listed,
    handle MainRooms.list_reserved_rooms
      (hotel "reserved" [stay 1 "101" "bob" 10 20 "reserved"]) []
    = (Return (total, listed), hotel "reserved" [stay 1 "101" "bob" 10 20 "reserved"])
    ∧ {| rr_room_number := "101"; rr_room_type := "single"; rr_guest_name := "bob";
         rr_arrival_date := 10; rr_departure_date := 20 |} ∈ listed.
Proof.
  apply (proj2 (reserved_rooms_listing (hotel "available" []) [])
           (reserve "101" "bob" 10 20)
           ([Txt "Reservation created successfully"], 1)
           (hotel "reserved" [stay 1 "101" "bob" 10 20 "reserved"])
           (single "available")).
  - vm_compute. reflexivity.
  - reflexivity.
Defined.

(** ** Creating, updating and deleting rooms *)

(** X15. [create_room] is for admins only (403 otherwise) and never
    registers a room number twice (400, nothing stored).  When it succeeds the
    room is stored under its number with the type and status of the request,
    the other rooms and all stays are untouched, and a second [create_room]
    for the same number is refused and leaves the first room in place. *)
Theorem create_room_once integer_column db fs room current_user :
  (role current_user ≠ "admin" →
   handle (MainRooms.create_room integer_column room current_user) db fs
   = (Raise (HTTPException 403 [Txt "Insufficient permissions"]), db))
  ∧ (role current_user = "admin" →
     is_Some (rooms db !! RoomSchema.room_number room) →
     handle (MainRooms.create_room integer_column room current_user) db fs
     = (Raise (HTTPException 400 [Txt "Room with this number already exists"]), db))
  ∧ (role current_user = "admin" →
     rooms db !! RoomSchema.room_number room = None →
     ∃ new_room db',
       handle (MainRooms.create_room integer_column room current_user) db []
       = (Return ([Txt "Room created successfully"], new_room), db')
       ∧ Room.room_type new_room = RoomSchema.room_type room
       ∧ Room.status new_room = RoomSchema.status room
       ∧ rooms db' !! RoomSchema.room_number room = Some new_room
       ∧ (∀ other, other ≠ RoomSchema.room_number room →
                   rooms db' !! other = rooms db !! other)
       ∧ reservations db' = reservations db
       ∧ ∀ fs' room',
           RoomSchema.room_number room' = RoomSchema.room_number room →
           handle (MainRooms.create_room integer_column room' current_user) db' fs'
           = (Raise (HTTPException 400 [Txt "Room with this number already exists"]),
              db')).
Proof.
  assert (Hexists : ∀ d fs' room',
    role current_user = "admin" →
    is_Some (rooms d !! RoomSchema.room_number room') →
    handle (MainRooms.create_room integer_column room' current_user) d fs'
    = (Raise (HTTPException 400 [Txt "Room with this number already exists"]), d)).
  { intros d fs' room' Hrole [r Hr]. unfold MainRooms.create_room.
    destruct (decide (role current_user ≠ "admin")); [done |].
    run. by rewrite Hr. }
  split_and!.
  - intros Hrole. unfold MainRooms.create_room.
    by destruct (decide (role current_user ≠ "admin")).
  - intros Hrole Hsome. by apply Hexists.
  - intros Hrole Hnone. eexists _, _. split_and!.
    + unfold MainRooms.create_room, MainRooms.crud_create_room.
      destruct (decide (role current_user ≠ "admin")); [done |].
      run. rewrite Hnone. reflexivity.
    + done.
    + done.
    + cbn. apply lookup_insert_eq.
    + intros other Hother. cbn. by rewrite lookup_insert_ne.
    + done.
    + intros fs' room' Hsame. apply Hexists; [done |].
      rewrite Hsame. cbn. rewrite lookup_insert_eq. by eexists.
Qed.

Lemma create_room_once_witness :
  handle (MainRooms.create_room Qfloor
            {| RoomSchema.room_number := "101"; RoomSchema.room_type := "double";
               RoomSchema.amount := 150; RoomSchema.status := "available" |}
            admin) (hotel "reserved" []) [true]
  = (Raise (HTTPException 400 [Txt "Room with this number already exists"]),
     hotel "reserved" []).
Proof.
  apply (proj1 (proj2 (create_room_once Qfloor (hotel "reserved" []) [true]
                         {| RoomSchema.room_number := "101";
                            RoomSchema.room_type := "double";
                            RoomSchema.amount := 150;
                            RoomSchema.status := "available" |} admin))).
  - reflexivity.
  - simpl. by eexists.
Defined.

Lemma room_update_body db fs room_number room_update room :
  rooms db !! room_number = Some room →
  handle (MainRooms.apply_room_update room_number room_update;;
          commit;;
          room ← MainRooms.refreshed_room room_number;
          mret ([Txt "Room updated successfully"], room)) db fs
  = match RoomUpdateSchema.status room_update with
    | Some s =>
        if decide (s ≠ "" ∧ s ∉ ["available"; "booked"; "maintenance"])
        then (Raise (HTTPException 400 [Txt "Invalid status value"]), db)
        else
          match fs with
          | true :: _ => (Raise SQLAlchemyError, db)
          | _ => (Return ([Txt "Room updated successfully"],
                          room_update_of room_update room),
                  set_rooms (insert room_number (room_update_of room_update room)) db)
          end
    | None =>
        match fs with
        | true :: _ => (Raise SQLAlchemyError, db)
        | _ => (Return ([Txt "Room updated successfully"],
                        room_update_of room_update room),
                set_rooms (insert room_number (room_update_of room_update room)) db)
        end
    end.
Proof.
  intros Hroom.
  assert (Hins : ∀ f, alter f room_number (rooms db) = <[room_number := f room]> (rooms db)).
  { intros f. apply map_eq. intros k. destruct (decide (k = room_number)) as [->|Hk].
    - by rewrite lookup_alter_eq, lookup_insert_eq, Hroom.
    - by rewrite lookup_alter_ne, lookup_insert_ne. }
  assert (Hins2 : ∀ f x, alter f room_number (<[room_number := x]> (rooms db))
                         = <[room_number := f x]> (rooms db)).
  { intros f x. apply map_eq. intros k. destruct (decide (k = room_number)) as [->|Hk].
    - by rewrite lookup_alter_eq, !lookup_insert_eq.
    - by rewrite lookup_alter_ne, !lookup_insert_ne. }
  assert (Hid : rooms db = <[room_number := room]> (rooms db))
    by (symmetry; by apply insert_id).
  unfold MainRooms.apply_room_update, MainRooms.refreshed_room, room_update_of.
  destruct room_update as [[t|] [a|] [st|]]; cbn [RoomUpdateSchema.room_type
    RoomUpdateSchema.amount RoomUpdateSchema.status];
    repeat case_decide; run; unfold set_rooms; cbn [rooms];
    try tauto;
    rewrite ?Hins, ?Hins2;
    try (destruct fs as [|[] fs]; cbn; rewrite ?lookup_insert_eq, ?Hroom;
         try reflexivity; cbn; rewrite <- ?Hid; try reflexivity);
    by destruct db.
Qed.

(** X16. [update_room] of main.py, called by an admin for a room that
    exists: an update whose status is not empty and not one of "available",
    "booked", "maintenance" (so also "reserved", which the schema admits) is
    answered 400 and nothing is stored, although the type and the amount were
    already assigned; any other update replaces exactly the fields given (an
    empty room type counts as not given, an amount of 0 is stored), leaves the
    other rooms and every stay as they were, and returns the stored room. *)
Theorem update_room_fields db room_number room_update current_user room :
  role current_user = "admin" →
  rooms db !! room_number = Some room →
  (¬ valid_status room_update →
   ∀ fs, handle (MainRooms.update_room room_number room_update current_user) db fs
         = (Raise (HTTPException 400 [Txt "Invalid status value"]), db))
  ∧ (valid_status room_update →
     ∃ db',
       handle (MainRooms.update_room room_number room_update current_user) db []
       = (Return ([Txt "Room updated successfully"],
                  room_update_of room_update room), db')
       ∧ rooms db' !! room_number = Some (room_update_of room_update room)
       ∧ (∀ other, other ≠ room_number → rooms db' !! other = rooms db !! other)
       ∧ reservations db' = reservations db
       ∧ (RoomUpdateSchema.room_type room_update = Some "" →
          Room.room_type (room_update_of room_update room) = Room.room_type room)
       ∧ (RoomUpdateSchema.amount room_update = Some 0 →
          Room.amount (room_update_of room_update room) = 0)).
Proof.
  intros Hrole Hroom.
  assert (Hrun : ∀ fs,
    handle (MainRooms.update_room room_number room_update current_user) db fs
    = handle (MainRooms.apply_room_update room_number room_update;;
              commit;;
              room ← MainRooms.refreshed_room room_number;
              mret ([Txt "Room updated successfully"], room)) db fs).
  { intros fs. unfold MainRooms.update_room.
    destruct (decide (role current_user ≠ "admin")); [done |].
    unfold handle, mbind at 1, M_bind at 1, bind at 1, query at 1.
    cbn [pending]. by rewrite Hroom. }
  split.
  - intros Hbad fs. rewrite Hrun, (room_update_body _ _ _ _ _ Hroom).
    unfold valid_status in Hbad.
    destruct (RoomUpdateSchema.status room_update) as [s|]; [| done].
    destruct (decide (_ ∧ _)) as [|Hn]; [done |].
    destruct Hbad. destruct (decide (s = "")); [by left | right].
    apply dec_stable. tauto.
  - intros Hok. rewrite Hrun, (room_update_body _ _ _ _ _ Hroom).
    eexists. split_and!.
    + unfold valid_status in Hok.
      destruct (RoomUpdateSchema.status room_update) as [s|]; [| reflexivity].
      destruct (decide (_ ∧ _)) as [[Hne Hnot]|_]; [| reflexivity].
      by destruct Hok.
    + cbn. apply lookup_insert_eq.
    + intros other Hother. cbn. by rewrite lookup_insert_ne.
    + done.
    + unfold room_update_of. intros ->. cbn.
      destruct (RoomUpdateSchema.amount room_update),
        (RoomUpdateSchema.status room_update) as [s|];
        try destruct (decide (s = "")); done.
    + unfold room_update_of. intros ->.
      destruct (RoomUpdateSchema.status room_update) as [s|];
        try destruct (decide (s = "")); done.
Qed.

Lemma update_room_fields_witness :
  (∀ fs,
     handle (MainRooms.update_room "101"
               {| RoomUpdateSchema.room_type := Some "suite";
                  RoomUpdateSchema.amount := Some 250;
                  RoomUpdateSchema.status := Some "reserved" |} admin)
       (hotel "available" []) fs
     = (Raise (HTTPException 400 [Txt "Invalid status value"]), hotel "available" []))
  ∧ ∃ db',
      handle (MainRooms.update_room "101"
                {| RoomUpdateSchema.room_type := Some "";
                   RoomUpdateSchema.amount := Some 0;
                   RoomUpdateSchema.status := Some "maintenance" |} admin)
        (hotel "available" []) []
      = (Return ([Txt "Room updated successfully"],
                 {| Room.room_type := "single"; Room.amount := 0;
                    Room.status := "maintenance" |}), db')
      ∧ rooms db' !! "101"
        = Some {| Room.room_type := "single"; Room.amount := 0;
                  Room.status := "maintenance" |}.
Proof.
  split.
  - apply (proj1 (update_room_fields (hotel "available" []) "101"
                    {| RoomUpdateSchema.room_type := Some "suite";
                       RoomUpdateSchema.amount := Some 250;
                       RoomUpdateSchema.status := Some "reserved" |}
                    admin (single "available") eq_refl eq_refl)).
    unfold valid_status. simpl. intros [Hempty|Hin]; [discriminate |].
    apply list_elem_of_In in Hin. simpl in Hin.
    destruct Hin as [Hin|[Hin|[Hin|[]]]]; discriminate.
  - destruct (proj2 (update_room_fields (hotel "available" []) "101"
                       {| RoomUpdateSchema.room_type := Some "";
                          RoomUpdateSchema.amount := Some 0;
                          RoomUpdateSchema.status := Some "maintenance" |}
                       admin (single "available") eq_refl eq_refl))
      as (db' & Hrun & Hlook & _).
    + unfold valid_status. simpl. right. apply list_elem_of_In. simpl. auto.
    + exists db'. split; [exact Hrun | exact Hlook].
Defined.

(** X17. [update_room] of app/rooms/router.py is [update_room] of main.py
    behind one more check: for an admin, a room whose status is "checked-in" is
    answered 400 and nothing is stored; in every other case the two handlers
    give the same answer and leave the same store. *)
Theorem router_update_room_guards_checked_in db fs room_number room_update current_user :
  handle (Rooms.update_room room_number room_update current_user) db fs
  = match rooms db !! room_number with
    | Some room =>
        if decide (role current_user = "admin" ∧ Room.status room = "checked-in")
        then (Raise (HTTPException 400
                [Txt "Room cannot be updated as it is currently checked-in"]), db)
        else handle (MainRooms.update_room room_number room_update current_user) db fs
    | None => handle (MainRooms.update_room room_number room_update current_user) db fs
    end.
Proof.
  unfold Rooms.update_room, MainRooms.update_room.
  destruct (decide (role current_user ≠ "admin")) as [Hrole|Hrole].
  - destruct (rooms db !! room_number); [| done].
    destruct (decide (_ ∧ _)) as [[? _]|_]; done.
  - run. destruct (rooms db !! room_number) as [room|]; [| done].
    destruct (decide (Room.status room = "checked-in")) as [Hst|Hst].
    + rewrite decide_True; [done |]. split; [by apply dec_stable | done].
    + rewrite decide_False; [done |]. tauto.
Qed.

(** X18. [delete_room] of app/rooms/router.py changes the store only for an
    admin, for a room that exists and whose status is neither "checked-in" nor
    "reserved", and only if the commit succeeds; every other call is answered
    403, 404, 400 or 500 and leaves the store as it was. *)
Theorem delete_room_guarded delete_room_row db fs room_number current_user :
  (role current_user ≠ "admin"
   ∨ rooms db !! room_number = None
   ∨ (∃ room, rooms db !! room_number = Some room
              ∧ (Room.status room = "checked-in" ∨ Room.status room = "reserved"))
   ∨ (∃ fs', fs = true :: fs')) →
  ∃ code detail,
    handle (Rooms.delete_room delete_room_row room_number current_user) db fs
    = (Raise (HTTPException code detail), db)
    ∧ code ∈ [403; 404; 400; 500].
Proof.
  intros Hcase. unfold Rooms.delete_room.
  destruct (decide (role current_user ≠ "admin")) as [|Hrole].
  { eexists _, _. split; [reflexivity |]. apply list_elem_of_In. cbn. auto. }
  run. destruct (rooms db !! room_number) as [room|] eqn:Hroom.
  2:{ eexists _, _. split; [reflexivity |]. apply list_elem_of_In. cbn. auto. }
  destruct (decide (Room.status room ∈ _)) as [|Hst].
  { eexists _, _. split; [reflexivity |]. apply list_elem_of_In. cbn. auto. }
  destruct Hcase as [?|[?|[(room' & [= <-] & Hs)|[fs' ->]]]]; [done | done | |].
  - destruct Hst. apply list_elem_of_In. cbn. destruct Hs; auto.
  - cbn. eexists _, _. split; [reflexivity |]. apply list_elem_of_In. cbn. auto.
Qed.

Lemma delete_room_guarded_witness :
  ∃ code detail,
    handle (Rooms.delete_room (fun rn => set_rooms (delete rn)) "101" admin)
      (hotel "reserved" [stay 1 "101" "bob" 10 20 "reserved"]) []
    = (Raise (HTTPException code detail),
       hotel "reserved" [stay 1 "101" "bob" 10 20 "reserved"])
    ∧ code ∈ [403; 404; 400; 500].
Proof.
  apply (delete_room_guarded (fun rn => set_rooms (delete rn))
           (hotel "reserved" [stay 1 "101" "bob" 10 20 "reserved"]) [] "101" admin).
  right. right. left. exists (single "reserved"). split; [reflexivity |].
  right. reflexivity.
Defined.

(** ** The debtor list *)













(** A booking without payments owes its total due, an int. *)
Example debtor_list_without_payments :
  handle (Debtors.get_debtor_list alice) (ledger []) []
  = (Return (inr (1, PyInt 300,
                  [ {| d_guest_name := "alice"; d_room_number := "101";
                       d_booking_id := 7; d_room_price := 100;
                       d_number_of_days := 3; d_total_due := 300;
                       d_total_paid := PyInt 0;
                       d_amount_due := PyInt 300 |} ])),
     ledger []).
Proof. vm_compute. reflexivity. Qed.

Example debtor_list_after_part_payment :
  handle (Debtors.get_debtor_list alice)
    (set_bookings (alter (Booking.with_payment_status "payment incomplete") 7)
       (ledger [paid_row 1 200 100 "payment incomplete"])) []
  = (Return (inr (1, PyFloat 100,
                  [ {| d_guest_name := "alice"; d_room_number := "101";
                       d_booking_id := 7; d_room_price := 100;
                       d_number_of_days := 3; d_total_due := 300;
                       d_total_paid := PyFloat 200;
                       d_amount_due := PyFloat 100 |} ])),
     set_bookings (alter (Booking.with_payment_status "payment incomplete") 7)
       (ledger [paid_row 1 200 100 "payment incomplete"])).
Proof. vm_compute. reflexivity. Qed.

(** A total due too large for a double makes the subtraction fail, and the
    request with it. *)
Example debtor_list_overflow :
  let db := {| rooms := {[ "101" := room_with_amount (2 ^ 1024)
                                      (single "checked-in") ]};
               reservations := [];
               bookings := {[ 7 := three_nights ]};
               payments := [paid_row 1 200 100 "payment incomplete"] |} in
  handle (Debtors.get_debtor_list alice) db []
  = (Raise (HTTPException 500
              [Txt "An error occurred while retrieving the debtor list."]), db).
Proof. vm_compute. reflexivity. Qed.

(** ** Payments and the debtor list *)

(** X20. The status [create_payment] records and the debtor list can
    disagree, the two adding the same amounts in different orders.  On the
    bill of 300 with 37.71 paid, a payment of 55.65 with a discount of 206.64
    is checked as a total of exactly 300 and recorded with balance 0 and
    status "payment completed", on the payment and on the booking
    (crud.create_payment storing the row as the request and the computed
    balance and status); [get_debtor_list], run on the store this leaves,
    adds the rows up to 299.99999999999994 and lists the booking as a debtor
    owing 5.6843418860808015e-14. *)
Theorem completed_payment_listed_as_debtor :
  (new_total_payment (ledger [paid_row 1 37.71 262.29 "payment incomplete"]) 7
     (pay_with_discount 55.65 206.64) =? 300)%float = true
  ∧ handle (Payments.create_payment (H := Payments.spec_crud) noon 7
              (pay_with_discount 55.65 206.64) alice)
      (ledger [paid_row 1 37.71 262.29 "payment incomplete"]) []
    = (Return ([Txt "Payment processed successfully."],
               discounted_row 2 55.65 206.64 0 "payment completed"),
       rounded_ledger)
  ∧ Booking.payment_status <$> bookings rounded_ledger !! 7
    = Some "payment completed"
  ∧ handle (Debtors.get_debtor_list alice) rounded_ledger []
    = (Return (inr (1, PyFloat 5.6843418860808015e-14, [rounded_debtor])),
       rounded_ledger)
  ∧ d_booking_id rounded_debtor = 7
  ∧ d_total_paid rounded_debtor = PyFloat 299.99999999999994
  ∧ positive (d_amount_due rounded_debtor).
Proof. split_and!; vm_compute; reflexivity. Qed.
